(** * distribution/build.py: the dependency-line transformer

    A shallow embedding of [distribution/build.py].  Python text is a
    sequence of Unicode code points, compared code point by code point, so a
    [str] is a list of code points ([N]).  The builtin string methods the
    script calls ([splitlines], [strip], [startswith], [replace], [split],
    [join], [format], the [in] test, [sorted], [set]) are written out with the
    behaviour CPython gives them; the functions of the script are then
    transcribed on top of them, with the subprocess results and the files the
    script touches passed in as explicit arguments. *)

From Stdlib Require Import NArith String Ascii Lia.
From stdpp Require Import base list sorting gmap strings.

Local Open Scope N_scope.
Local Open Scope nat_scope.

(** ** Python strings *)

Module Py.

(** A code point, and a string. *)
Abbreviation char := N (only parsing).
Abbreviation str := (list N) (only parsing).

(** A literal of the script, as its code points. *)
Definition lit (s : string) : str :=
  List.map N_of_ascii (list_ascii_of_string s).

Definition newline : char := 10%N.
Definition space : char := 32%N.
Definition backslash : char := 92%N.
Definition lbrace : char := 123%N.
Definition rbrace : char := 125%N.

(** [str.isspace] on one code point: the code points the no-argument
    [strip], [rstrip] and [split] treat as whitespace. *)
Definition isspace (c : char) : bool :=
  ((9 <=? c) && (c <=? 13) || (28 <=? c) && (c <=? 32)
   || (c =? 133) || (c =? 160) || (c =? 5760)
   || (8192 <=? c) && (c <=? 8202)
   || (c =? 8232) || (c =? 8233) || (c =? 8239) || (c =? 8287)
   || (c =? 12288))%N.

(** The line boundaries of [str.splitlines], carriage return apart. *)
Definition is_linebreak (c : char) : bool :=
  ((10 <=? c) && (c <=? 12) || (28 <=? c) && (c <=? 30)
   || (c =? 133) || (c =? 8232) || (c =? 8233))%N.

Definition carriage_return : char := 13%N.

(** [s.splitlines()]: the lines without their terminators; a carriage
    return followed by a line feed is one boundary, and a final terminator
    does not open an empty last line. *)
Fixpoint splitlines_from (cur : str) (s : str) : list str :=
  match s with
  | [] => match cur with [] => [] | _ => [reverse cur] end
  | c :: rest =>
      if (c =? carriage_return)%N then
        match rest with
        | d :: rest' =>
            if (d =? newline)%N then reverse cur :: splitlines_from [] rest'
            else reverse cur :: splitlines_from [] rest
        | [] => [reverse cur]
        end
      else if is_linebreak c then reverse cur :: splitlines_from [] rest
      else splitlines_from (c :: cur) rest
  end.

Definition splitlines (s : str) : list str := splitlines_from [] s.

Fixpoint lstrip (s : str) : str :=
  match s with
  | c :: rest => if isspace c then lstrip rest else s
  | [] => []
  end.

Definition rstrip (s : str) : str := reverse (lstrip (reverse s)).

Definition strip (s : str) : str := rstrip (lstrip s).

Fixpoint startswith (s p : str) {struct p} : bool :=
  match p, s with
  | [], _ => true
  | _ :: _, [] => false
  | x :: p', y :: s' => (x =? y)%N && startswith s' p'
  end.

(** [sub in s] *)
Fixpoint contains (sub s : str) : bool :=
  startswith s sub ||
  match s with
  | [] => false
  | _ :: rest => contains sub rest
  end.

(** [s.replace(old, new, 1)] for a nonempty [old]: the leftmost occurrence
    is replaced, and [s] is returned as it is when there is none. *)
Fixpoint replace_first (old new s : str) : str :=
  if startswith s old then new ++ drop (length old) s
  else match s with
       | [] => []
       | c :: rest => c :: replace_first old new rest
       end.

(** [s.split(sep, maxsplit)] for a one-character separator: at most
    [maxsplit] cuts, leftmost first; adjacent separators give empty
    parts. *)
Fixpoint split_max (sep : char) (maxsplit : nat) (s : str) : list str :=
  match maxsplit with
  | O => [s]
  | S m =>
      match s with
      | [] => [[]]
      | c :: rest =>
          if (c =? sep)%N then [] :: split_max sep m rest
          else match split_max sep maxsplit rest with
               | part :: parts => (c :: part) :: parts
               | [] => [[c]]
               end
      end
  end.

(** [s.split()] : the maximal runs of non-whitespace code points. *)
Fixpoint split_ws_from (cur : str) (s : str) : list str :=
  match s with
  | [] => match cur with [] => [] | _ => [reverse cur] end
  | c :: rest =>
      if isspace c then
        match cur with
        | [] => split_ws_from [] rest
        | _ => reverse cur :: split_ws_from [] rest
        end
      else split_ws_from (c :: cur) rest
  end.

Definition split_ws (s : str) : list str := split_ws_from [] s.

(** [s.split(sep)] for a separator of any positive length; [skip] counts
    the code points of a separator just matched that are still to be
    passed over. *)
Fixpoint split_sep_from (sep : str) (skip : nat) (cur : str) (s : str)
  : list str :=
  match s with
  | [] => [reverse cur]
  | c :: rest =>
      match skip with
      | S k => split_sep_from sep k cur rest
      | O =>
          if startswith s sep
          then reverse cur :: split_sep_from sep (length sep - 1) [] rest
          else split_sep_from sep 0 (c :: cur) rest
      end
  end.

Definition split_sep (sep s : str) : list str := split_sep_from sep 0 [] s.

(** [sep.join(parts)] *)
Fixpoint join (sep : str) (parts : list str) : str :=
  match parts with
  | [] => []
  | [p] => p
  | p :: rest => p ++ sep ++ join sep rest
  end.

(** The order of [str]: code point by code point, a proper prefix first. *)
Fixpoint str_leb (a b : str) : bool :=
  match a, b with
  | [], _ => true
  | _ :: _, [] => false
  | x :: a', y :: b' =>
      if (x <? y)%N then true
      else if (x =? y)%N then str_leb a' b'
      else false
  end.

Definition str_le (a b : str) : Prop := str_leb a b = true.

#[global] Instance str_le_dec (a b : str) : Decision (str_le a b).
Proof. unfold str_le. apply _. Defined.

(** A line boundary of [str.splitlines], carriage return included. *)
Definition is_boundary (c : char) : bool :=
  (c =? carriage_return)%N || is_linebreak c.

(** [sorted(l)] on a list of strings. *)
Definition sorted (l : list str) : list str := merge_sort str_le l.

(** [sorted(set(l))]: the set is iterated in an order of its own and the
    sort puts its elements in order. *)
Definition sorted_set (l : list str) : list str :=
  sorted (elements (list_to_set l : gset str)).

End Py.

(** ** The script *)

Module Build.
Import Py.

(** *** What a run of the script can do

    A function of the script prints lines and then returns a value, leaves
    through [sys.exit], or lets an exception escape. *)

Inductive outcome (A : Type) : Type :=
  | Returns (a : A)
  | SysExit (code : Z)
  | Raises.
Arguments Returns {A} a.
Arguments SysExit {A} code.
Arguments Raises {A}.

Definition io (A : Type) : Type := (list str * outcome A)%type.

Definition ret {A} (a : A) : io A := ([], Returns a).

Definition bind {A B} (m : io A) (k : A → io B) : io B :=
  match m with
  | (out, Returns a) => let '(out', r) := k a in (out ++ out', r)
  | (out, SysExit code) => (out, SysExit code)
  | (out, Raises) => (out, Raises)
  end.

Definition print (s : str) : io unit := ([s], Returns tt).
Definition sys_exit {A} (code : Z) : io A := ([], SysExit code).

Notation "m >>> k" := (bind m (fun _ => k))
  (at level 100, k at level 200, right associativity).

Definition printed {A} (m : io A) : list str := fst m.
Definition result {A} (m : io A) : outcome A := snd m.

(** [subprocess.CompletedProcess], with the output captured as text. *)
Record CompletedProcess : Type := {
  returncode : Z;
  stdout : str;
  stderr : str
}.

Definition BASE_REQUIREMENTS : list str := [lit "llama-stack==0.2.18"].

(** The four lists [get_dependencies] fills. *)
Record deps : Type := {
  standard_deps : list str;
  torch_deps : list str;
  no_deps : list str;
  no_cache : list str
}.

Definition no_lines : deps :=
  {| standard_deps := []; torch_deps := []; no_deps := []; no_cache := [] |}.

(** The separator of the multi-line form: a space, a backslash, a line
    feed and four spaces. *)
Definition continuation : str := [space; backslash; newline] ++ lit "    ".

(** The body of the loop of [get_dependencies] (lines 78 to 102): what one
    line of the captured output appends, and to which list. *)
Definition process_line (acc : deps) (line : str) : deps :=
  if startswith (strip line) (lit "uv pip") then
    let parts :=
      split_max space 3 (replace_first (lit "uv ") (lit "RUN ") line) in
    if 4 <=? length parts then
      let cmd_parts := take 3 parts in
      let packages := sorted_set (split_ws (nth 3 parts [])) in
      if contains (lit "--index-url") line then
        let full_cmd := join (lit " ") (cmd_parts ++ [join (lit " ") packages]) in
        {| standard_deps := standard_deps acc;
           torch_deps := torch_deps acc ++ [full_cmd];
           no_deps := no_deps acc;
           no_cache := no_cache acc |}
      else if contains (lit "--no-deps") line then
        let full_cmd := join (lit " ") (cmd_parts ++ [join (lit " ") packages]) in
        {| standard_deps := standard_deps acc;
           torch_deps := torch_deps acc;
           no_deps := no_deps acc ++ [full_cmd];
           no_cache := no_cache acc |}
      else if contains (lit "--no-cache") line then
        let full_cmd := join (lit " ") (cmd_parts ++ [join (lit " ") packages]) in
        {| standard_deps := standard_deps acc;
           torch_deps := torch_deps acc;
           no_deps := no_deps acc;
           no_cache := no_cache acc ++ [full_cmd] |}
      else
        let formatted_packages := join continuation packages in
        let full_cmd :=
          join (lit " ") cmd_parts ++ continuation ++ formatted_packages in
        {| standard_deps := standard_deps acc ++ [full_cmd];
           torch_deps := torch_deps acc;
           no_deps := no_deps acc;
           no_cache := no_cache acc |}
    else
      {| standard_deps := standard_deps acc ++ [join (lit " ") parts];
         torch_deps := torch_deps acc;
         no_deps := no_deps acc;
         no_cache := no_cache acc |}
  else acc.

(** The loop over [result.stdout.splitlines()]. *)
Definition collect (text : str) : deps :=
  fold_left process_line (splitlines text) no_lines.

(** Lines 104 to 111: the four lists, each sorted, one after the other and
    joined with line feeds. *)
Definition combine (d : deps) : str :=
  let all_deps :=
    sorted (standard_deps d) ++ sorted (torch_deps d)
    ++ sorted (no_deps d) ++ sorted (no_cache d) in
  join [newline] all_deps.

(** [str.format] with the one keyword argument [dependencies], for
    templates whose replacement fields are plain names.  [field] is the
    name read so far once a field is open.  [None] stands for a template
    outside this fragment (a field with a conversion, a format
    specification, an attribute, an index or a nested field), to which no
    meaning is given here. *)
Inductive format_result : Type :=
  | Formatted (s : str)
  | FormatRaises.

Definition format_cons (c : char) (r : option format_result)
  : option format_result :=
  match r with
  | Some (Formatted s) => Some (Formatted (c :: s))
  | other => other
  end.

Definition format_app (v : str) (r : option format_result)
  : option format_result :=
  match r with
  | Some (Formatted s) => Some (Formatted (v ++ s))
  | other => other
  end.

Definition field_syntax (c : char) : bool :=
  ((c =? 33) || (c =? 58) || (c =? 46) || (c =? 91) || (c =? lbrace))%N.

Fixpoint format_from (field : option str) (dependencies : str) (tpl : str)
  : option format_result :=
  match tpl with
  | [] =>
      match field with
      | None => Some (Formatted [])
      | Some _ => Some FormatRaises
      end
  | c :: rest =>
      match field with
      | None =>
          if (c =? lbrace)%N then
            match rest with
            | d :: rest' =>
                if (d =? lbrace)%N
                then format_cons lbrace (format_from None dependencies rest')
                else format_from (Some []) dependencies rest
            | [] => Some FormatRaises
            end
          else if (c =? rbrace)%N then
            match rest with
            | d :: rest' =>
                if (d =? rbrace)%N
                then format_cons rbrace (format_from None dependencies rest')
                else Some FormatRaises
            | [] => Some FormatRaises
            end
          else format_cons c (format_from None dependencies rest)
      | Some name =>
          if (c =? rbrace)%N then
            if bool_decide (reverse name = lit "dependencies")
            then format_app dependencies (format_from None dependencies rest)
            else Some FormatRaises
          else if field_syntax c then None
          else format_from (Some (c :: name)) dependencies rest
      end
  end.

Definition format (tpl dependencies : str) : option format_result :=
  format_from None dependencies tpl.

Definition template_path : string := "distribution/Containerfile.in".
Definition output_path : string := "distribution/Containerfile".

(** The loop of lines 43 to 47 over the requirements: the text after the
    first [==] of the first requirement that pins llama-stack.  [None] is
    Python's [None]; the index 1 is always there for a requirement that
    starts with the prefix. *)
Fixpoint pinned_version (reqs : list str) : option str :=
  match reqs with
  | [] => None
  | req :: rest =>
      if startswith req (lit "llama-stack==")
      then split_sep (lit "==") req !! 1
      else pinned_version rest
  end.

(** Truth value of an optional string: [None] and the empty string are
    false. *)
Definition truthy (v : option str) : bool :=
  match v with
  | Some (_ :: _) => true
  | _ => false
  end.

Section Script.

(** The environment: what the shell gives back for a command line, and the
    text Python prints for a [CalledProcessError] raised for a command
    with an exit status. *)
Variable shell : str → CompletedProcess.
Variable called_process_error_text : str → Z → str.

(** [subprocess.run(cmd, shell=True, capture_output=True, text=True,
    check=True)]: a nonzero exit status raises [CalledProcessError]
    ([inr]), which carries the process. *)
Definition subprocess_run_check (cmd : str)
  : CompletedProcess + CompletedProcess :=
  let p := shell cmd in
  if (returncode p =? 0)%Z then inl p else inr p.

Definition check_llama_stack_version : io unit :=
  match subprocess_run_check (lit "llama stack --version") with
  | inl result =>
      let installed_version := strip (stdout result) in
      let expected_version := pinned_version BASE_REQUIREMENTS in
      if truthy expected_version
         && negb (bool_decide (Some installed_version = expected_version))
      then
        print (lit "Error: llama-stack version mismatch!") >>>
        print (lit "  Expected: " ++ default [] expected_version) >>>
        print (lit "  Installed: " ++ installed_version) >>>
        print (lit "  If you just bumped the llama-stack version in BASE_REQUIREMENTS, you must update the version from .pre-commit-config.yaml") >>>
        sys_exit 1%Z
      else ret tt
  | inr e =>
      print (lit "Warning: Could not check llama-stack version: "
             ++ called_process_error_text (lit "['llama stack --version']")
                  (returncode e)) >>>
      print (lit "Continuing without version validation...")
  end.

Definition build_command (standalone : bool) : str :=
  let config_file :=
    if standalone then lit "distribution/build-standalone.yaml"
    else lit "distribution/build.yaml" in
  lit "llama stack build --config " ++ config_file ++ lit " --print-deps-only".

Definition get_dependencies (standalone : bool) : io str :=
  let cmd := build_command standalone in
  match subprocess_run_check cmd with
  | inl result => ret (combine (collect (stdout result)))
  | inr e =>
      print (lit "Error executing command: "
             ++ called_process_error_text cmd (returncode e)) >>>
      print (lit "Command output: " ++ stdout e) >>>
      print (lit "Command stderr: " ++ stderr e) >>>
      sys_exit 1%Z
  end.

End Script.

(** The banner of line 139. *)
Definition warning (standalone unified : bool) : str :=
  let mode :=
    if unified then lit "unified"
    else if standalone then lit "standalone"
    else lit "full" in
  lit "# WARNING: This file is auto-generated. Do not modify it manually."
  ++ [newline] ++ lit "# Generated by: distribution/build.py --" ++ mode
  ++ [newline; newline].

(** [generate_containerfile] over a file system, a map from paths to file
    contents; the value returned is the file system after the call. *)
Definition generate_containerfile (fs : gmap string str)
    (dependencies : str) (standalone unified : bool)
  : option (io (gmap string str)) :=
  match fs !! template_path with
  | None =>
      Some (print (lit "Error: Template file distribution/Containerfile.in not found") >>>
            sys_exit 1%Z)
  | Some template_content =>
      match format template_content (rstrip dependencies) with
      | None => None
      | Some FormatRaises => Some ([], Raises)
      | Some (Formatted body) =>
          let containerfile_content := warning standalone unified ++ body in
          Some (print (lit "Successfully generated distribution/Containerfile") >>>
                ret (<[output_path := containerfile_content]> fs))
      end
  end.

(** *** The rewriting, line by line

    The same loop read as a specification: a line is either ignored or
    rewritten into one entry of one category. *)

Inductive category : Type := Standard | IndexURL | NoDeps | NoCache.

#[global] Instance category_eq_dec : EqDecision category.
Proof. solve_decision. Defined.

Definition matches (line : str) : bool :=
  startswith (strip line) (lit "uv pip").

Definition parts_of (line : str) : list str :=
  split_max space 3 (replace_first (lit "uv ") (lit "RUN ") line).

Definition has_payload (line : str) : bool := 4 <=? length (parts_of line).

Definition cmd_parts_of (line : str) : list str := take 3 (parts_of line).

Definition payload_of (line : str) : str := nth 3 (parts_of line) [].

Definition packages_of (line : str) : list str :=
  sorted_set (split_ws (payload_of line)).

(** The flag tests in the order the script makes them. *)
Definition classify (line : str) : category :=
  if contains (lit "--index-url") line then IndexURL
  else if contains (lit "--no-deps") line then NoDeps
  else if contains (lit "--no-cache") line then NoCache
  else Standard.

Definition single_line (cmd_parts packages : list str) : str :=
  join (lit " ") (cmd_parts ++ [join (lit " ") packages]).

Definition multi_line (cmd_parts packages : list str) : str :=
  join (lit " ") cmd_parts ++ continuation ++ join continuation packages.

Definition rewrite_line (line : str) : option (category * str) :=
  if matches line then
    if has_payload line then
      match classify line with
      | Standard =>
          Some (Standard, multi_line (cmd_parts_of line) (packages_of line))
      | c => Some (c, single_line (cmd_parts_of line) (packages_of line))
      end
    else Some (Standard, replace_first (lit "uv ") (lit "RUN ") line)
  else None.

(** The entries of one category, in the order of the lines. *)
Definition entries (c : category) (lines : list str) : list str :=
  omap (fun line =>
          match rewrite_line line with
          | Some (c', e) => if bool_decide (c' = c) then Some e else None
          | None => None
          end) lines.

Definition bucket (c : category) (d : deps) : list str :=
  match c with
  | Standard => standard_deps d
  | IndexURL => torch_deps d
  | NoDeps => no_deps d
  | NoCache => no_cache d
  end.

Definition occurrences (c : char) (s : str) : nat :=
  length (filter (fun x => x = c) s).

(** What one line adds to the list of a category. *)
Definition entry_in (c : category) (line : str) : list str :=
  match rewrite_line line with
  | Some (c', e) => if bool_decide (c' = c) then [e] else []
  | None => []
  end.

(** The entry of a line that matches and has a payload. *)
Definition entry_of (line : str) : str :=
  match classify line with
  | Standard => multi_line (cmd_parts_of line) (packages_of line)
  | _ => single_line (cmd_parts_of line) (packages_of line)
  end.

(** The number of entries in the four lists. *)
Definition total (d : deps) : nat :=
  length (standard_deps d) + length (torch_deps d)
  + length (no_deps d) + length (no_cache d).

(** A text that does not end in a line feed. *)
Definition no_trailing_newline (s : str) : Prop :=
  ∀ pre, s ≠ pre ++ [newline].

(** *** The entry point

    [main] after [parser.parse_args()]: the two switches of the command
    line come in as booleans.  The rest of the environment is what
    [shutil.which] finds for a program name, what [os.getenv] holds for a
    variable, and the builtin [str.lower], which is left uninterpreted. *)

Section Entry.

Variable shell : str → CompletedProcess.
Variable called_process_error_text : str → Z → str.
Variable which : str → option str.
Variable getenv : str → option str.
Variable lower : str → str.

Definition check_llama_installed : io unit :=
  if negb (truthy (which (lit "llama"))) then
    print (lit "Error: llama binary not found. Please install it first.") >>>
    sys_exit 1%Z
  else ret tt.

(** [os.getenv(name, default).lower() in (true, 1, yes)] *)
Definition env_enabled (name : str) : bool :=
  bool_decide (lower (default (lit "false") (getenv name))
               ∈ [lit "true"; lit "1"; lit "yes"]).

(** The version check lets the run go on: the version command exits with
    a nonzero status, or prints the pinned version. *)
Definition version_accepted : bool :=
  negb (returncode (shell (lit "llama stack --version")) =? 0)%Z
  || bool_decide (strip (stdout (shell (lit "llama stack --version")))
                  = lit "0.2.18").

(** Lines 196 to 210. *)
Definition closing_messages (standalone unified : bool) : io unit :=
  print ([newline] ++ lit "To build the Docker image:") >>>
  if unified then
    print (lit "  docker build -f distribution/Containerfile -t llama-stack-unified .") >>>
    print ([newline] ++ lit "To run in standalone mode:") >>>
    print (lit "  docker run -e STANDALONE=true -e VLLM_URL=http://host.docker.internal:8000/v1 -e INFERENCE_MODEL=your-model -p 8321:8321 llama-stack-unified") >>>
    print ([newline] ++ lit "To run in full mode (requires Kubernetes):") >>>
    print (lit "  docker run -p 8321:8321 llama-stack-unified")
  else if standalone then
    print (lit "  docker build -f distribution/Containerfile -t llama-stack-standalone .") >>>
    print ([newline] ++ lit "To run in standalone mode:") >>>
    print (lit "  docker run -e VLLM_URL=http://host.docker.internal:8000/v1 -e INFERENCE_MODEL=your-model -p 8321:8321 llama-stack-standalone")
  else
    print (lit "  docker build -f distribution/Containerfile -t llama-stack-full .") >>>
    print ([newline] ++ lit "To run with full features (requires Kubernetes):") >>>
    print (lit "  docker run -p 8321:8321 llama-stack-full").

(** Lines 176 to 190: everything up to the dependencies. *)
Definition gather (standalone unified : bool) : io str :=
  (if unified then
     print (lit "Building unified version (supports both full and standalone modes)...")
   else
     let mode := if standalone then lit "standalone" else lit "full" in
     print (lit "Building " ++ mode ++ lit " version...")) >>>
  print (lit "Checking llama installation...") >>>
  check_llama_installed >>>
  print (lit "Checking llama-stack version...") >>>
  check_llama_stack_version shell called_process_error_text >>>
  print (lit "Getting dependencies...") >>>
  get_dependencies shell called_process_error_text standalone.

(** [main] on a file system; [None] only for a template outside the
    fragment [format] covers. *)
Definition main (args_standalone args_unified : bool)
    (fs : gmap string (list N)) : option (io (gmap string (list N))) :=
  let standalone := args_standalone || env_enabled (lit "STANDALONE") in
  let unified := args_unified || env_enabled (lit "UNIFIED") in
  match gather standalone unified with
  | (out, Returns dependencies) =>
      match generate_containerfile fs dependencies standalone unified with
      | None => None
      | Some generated =>
          Some (bind (out ++ [lit "Generating Containerfile..."], Returns tt)
                  (fun _ =>
                     bind generated (fun fs' =>
                       print (lit "Done!") >>>
                       closing_messages standalone unified >>>
                       ret fs')))
      end
  | (out, SysExit code) => Some (out, SysExit code)
  | (out, Raises) => Some (out, Raises)
  end.

End Entry.

(** *** Sample environments

    A shell that answers every command with one exit status and one output,
    an error text, a sample of captured output and a template. *)

Definition answering (code : Z) (out : str) : str → CompletedProcess :=
  fun _ => {| returncode := code; stdout := out; stderr := [] |}.

Definition plain_error_text : str → Z → str :=
  fun cmd _ => lit "Command '" ++ cmd ++ lit "' failed.".

Definition sample_standard_line : str :=
  lit "uv pip install pillow 'fastapi==1.0' aiosqlite pillow".

Definition sample_no_deps_line : str :=
  lit "uv pip install --no-deps 'llama-stack-client==1.2.3' --no-deps".

Definition sample_short_line : str := [9%N] ++ lit "uv pip install--no-deps".

Definition sample_output : str :=
  sample_standard_line ++ [newline]
  ++ lit "Collecting dependencies" ++ [newline]
  ++ sample_no_deps_line ++ [newline]
  ++ lit "uv pip install --no-cache b a" ++ [newline]
  ++ lit "uv pip install" ++ [newline].

Definition sample_output_reordered : str :=
  lit "uv pip install" ++ [newline]
  ++ lit "uv pip install --no-cache b a" ++ [carriage_return; newline]
  ++ sample_no_deps_line ++ [newline]
  ++ lit "Collecting dependencies" ++ [newline]
  ++ sample_standard_line.

Definition sample_front : str := lit "FROM registry/base" ++ [newline].
Definition sample_back : str := [newline] ++ lit "USER 1001" ++ [newline].

Definition sample_output_bare : str :=
  lit "uv pip install --no-cache b a" ++ [newline]
  ++ lit "uv pip install" ++ [newline]
  ++ sample_standard_line ++ [newline]
  ++ sample_no_deps_line.

Definition sample_shell : str → CompletedProcess :=
  fun cmd =>
    if bool_decide (cmd = lit "llama stack --version")
    then {| returncode := 0; stdout := lit "0.2.18" ++ [newline]; stderr := [] |}
    else {| returncode := 0; stdout := sample_output; stderr := [] |}.

Definition sample_which : str → option str :=
  fun name => Some (lit "/usr/bin/" ++ name).

Definition sample_getenv : str → option str :=
  fun name => if bool_decide (name = lit "UNIFIED") then Some (lit "yes")
              else None.

(** A stand-in for [str.lower] on text that is in lower case already. *)
Definition sample_lower : str → str := fun s => s.

Definition sample_fs : gmap string (list N) :=
  {[ template_path := sample_front ++ lit "{dependencies}" ++ sample_back ]}.

End Build.

(** ** Facts about the string operations *)

Module PyFacts.
Import Py.

(** *** The order of strings *)

Lemma str_leb_refl (a : str) : str_leb a a = true.
Proof.
  induction a as [|x a IH]; simpl; [done|].
  by rewrite N.ltb_irrefl, N.eqb_refl.
Qed.

Lemma str_leb_total (a b : str) : str_leb a b = true ∨ str_leb b a = true.
Proof.
  revert b; induction a as [|x a IH]; intros [|y b]; simpl; auto.
  destruct (N.ltb_spec x y) as [Hxy|Hxy]; [by left|].
  destruct (N.ltb_spec y x) as [Hyx|Hyx]; [by right|].
  assert (x = y) as -> by lia.
  rewrite N.eqb_refl. apply IH.
Qed.

Lemma str_leb_trans (a b c : str) :
  str_leb a b = true → str_leb b c = true → str_leb a c = true.
Proof.
  revert b c; induction a as [|x a IH]; intros [|y b] [|z c]; simpl; try done.
  destruct (N.ltb_spec x y) as [Hxy|Hxy].
  - intros _.
    destruct (N.ltb_spec y z) as [Hyz|Hyz].
    + intros _. destruct (N.ltb_spec x z); [done|lia].
    + destruct (N.eqb_spec y z) as [->|]; [|done].
      intros _. destruct (N.ltb_spec x z); [done|lia].
  - destruct (N.eqb_spec x y) as [->|]; [|done].
    intros Hab.
    destruct (N.ltb_spec y z) as [Hyz|Hyz]; [done|].
    destruct (N.eqb_spec y z) as [->|]; [|done].
    by apply IH.
Qed.

Lemma str_leb_antisym (a b : str) :
  str_leb a b = true → str_leb b a = true → a = b.
Proof.
  revert b; induction a as [|x a IH]; intros [|y b]; simpl; try done.
  destruct (N.ltb_spec x y) as [Hxy|Hxy].
  - intros _. destruct (N.ltb_spec y x); [lia|].
    destruct (N.eqb_spec y x); [lia|done].
  - destruct (N.eqb_spec x y) as [->|]; [|done].
    rewrite N.ltb_irrefl, N.eqb_refl.
    intros H1 H2. f_equal. by apply IH.
Qed.

#[global] Instance str_le_total : Total str_le.
Proof. intros a b. apply str_leb_total. Qed.

#[global] Instance str_le_trans : Transitive str_le.
Proof. intros a b c. apply str_leb_trans. Qed.

#[global] Instance str_le_refl : Reflexive str_le.
Proof. intros a. apply str_leb_refl. Qed.

#[global] Instance str_le_antisym : AntiSymm (=) str_le.
Proof. intros a b. apply str_leb_antisym. Qed.

(** *** [sorted] *)

Lemma sorted_perm (l : list str) : sorted l ≡ₚ l.
Proof. apply merge_sort_Permutation. Qed.

Lemma sorted_strongly (l : list str) : StronglySorted str_le (sorted l).
Proof. apply StronglySorted_merge_sort; apply _. Qed.

(** The result of [sorted] depends on the elements only, not on the order
    they come in. *)
Lemma sorted_of_perm (l1 l2 : list str) : l1 ≡ₚ l2 → sorted l1 = sorted l2.
Proof.
  intros Hperm.
  apply (StronglySorted_unique str_le); try apply sorted_strongly.
  by rewrite !sorted_perm.
Qed.

Lemma sorted_nil_inv (l : list str) : sorted l = [] → l = [].
Proof.
  intros H. apply Permutation_nil_r. rewrite <- H. symmetry. apply sorted_perm.
Qed.

Lemma elem_of_sorted (l : list str) (x : str) : x ∈ sorted l ↔ x ∈ l.
Proof. by rewrite sorted_perm. Qed.

(** *** [sorted(set(l))] *)

Lemma elem_of_sorted_set (l : list str) (x : str) : x ∈ sorted_set l ↔ x ∈ l.
Proof.
  unfold sorted_set. rewrite elem_of_sorted, elem_of_elements.
  apply elem_of_list_to_set.
Qed.

Lemma NoDup_sorted_set (l : list str) : NoDup (sorted_set l).
Proof.
  unfold sorted_set. rewrite sorted_perm. apply NoDup_elements.
Qed.

Lemma sorted_set_strongly (l : list str) :
  StronglySorted str_le (sorted_set l).
Proof. apply sorted_strongly. Qed.

(** Whatever order the set is iterated in, the sorted list is the same. *)
Lemma sorted_set_any_iteration (l order : list str) :
  order ≡ₚ elements (list_to_set l : gset str) →
  sorted order = sorted_set l.
Proof. apply sorted_of_perm. Qed.

Lemma sorted_set_nil_inv (l : list str) : sorted_set l = [] → l = [].
Proof.
  intros H. destruct l as [|x l]; [done|].
  assert (x ∈ sorted_set (x :: l)) as Hx
    by (apply elem_of_sorted_set; left).
  rewrite H in Hx. by apply elem_of_nil in Hx.
Qed.

Lemma filter_eq_absent (x : str) (k : list str) :
  x ∉ k → filter (λ y, y = x) k = [].
Proof.
  induction k as [|y k IH]; [done|].
  intros Hx. apply not_elem_of_cons in Hx as [Hne Hx].
  rewrite filter_cons_False by congruence. by apply IH.
Qed.

Lemma sorted_set_count (l : list str) (x : str) :
  x ∈ l → length (filter (λ y, y = x) (sorted_set l)) = 1.
Proof.
  intros Hx. apply elem_of_sorted_set in Hx.
  pose proof (NoDup_sorted_set l) as Hnd.
  induction Hnd as [|y k Hy Hnd IH]; [by apply elem_of_nil in Hx|].
  destruct (decide (y = x)) as [->|Hne].
  - rewrite filter_cons_True by done.
    by rewrite filter_eq_absent.
  - rewrite filter_cons_False by done.
    apply elem_of_cons in Hx as [->|Hx]; [done|]. by apply IH.
Qed.

(** *** [join] and [split] *)

Lemma join_cons (sep p : str) (q : str) (rest : list str) :
  join sep (p :: q :: rest) = p ++ sep ++ join sep (q :: rest).
Proof. done. Qed.

Lemma join_cons_head (sep : str) (c : char) (p : str) (ps : list str) :
  join sep ((c :: p) :: ps) = c :: join sep (p :: ps).
Proof. by destruct ps. Qed.

Lemma join_snoc (sep : str) (l : list str) (p : str) :
  l ≠ [] → join sep (l ++ [p]) = join sep l ++ sep ++ p.
Proof.
  induction l as [|q l IH]; [done|]. intros _.
  destruct l as [|r l]; [done|].
  change ((q :: r :: l) ++ [p]) with (q :: (r :: l) ++ [p]).
  simpl app at 1. rewrite !join_cons. change (r :: l ++ [p]) with ((r :: l) ++ [p]).
  rewrite IH by done. by rewrite <- !(assoc_L (++)).
Qed.

Lemma elem_of_join (sep : str) (l : list str) (c : char) :
  c ∈ join sep l → c ∈ sep ∨ ∃ p, p ∈ l ∧ c ∈ p.
Proof.
  induction l as [|p l IH]; [by intros ?%elem_of_nil|].
  destruct l as [|q l].
  - intros Hc. right. exists p. split; [left|done].
  - rewrite join_cons, !elem_of_app. intros [Hc|[Hc|Hc]].
    + right. exists p. split; [left|done].
    + by left.
    + destruct (IH Hc) as [?|(r & Hr & Hcr)]; [by left|].
      right. exists r. split; [by right|done].
Qed.

Lemma elem_of_join_part (sep : str) (l : list str) (p : str) (c : char) :
  p ∈ l → c ∈ p → c ∈ join sep l.
Proof.
  induction l as [|q l IH]; [by intros ?%elem_of_nil|].
  intros Hp Hc. destruct l as [|r l].
  - apply list_elem_of_singleton in Hp as ->. done.
  - rewrite join_cons, !elem_of_app.
    apply elem_of_cons in Hp as [->|Hp]; [by left|].
    right; right. by apply IH.
Qed.

Lemma split_max_nonempty (sep : char) (n : nat) (s : str) :
  split_max sep n s ≠ [].
Proof.
  destruct s as [|c rest], n as [|m]; try done. simpl.
  destruct (c =? sep)%N; [done|].
  by destruct (split_max sep (S m) rest).
Qed.

(** Splitting on a separator and joining with it gives the string back,
    whatever the bound on the number of cuts. *)
Lemma join_split_max (sep : char) (n : nat) (s : str) :
  join [sep] (split_max sep n s) = s.
Proof.
  revert n; induction s as [|c rest IH]; intros [|m]; try done.
  simpl. destruct (N.eqb_spec c sep) as [->|Hne].
  - pose proof (split_max_nonempty sep m rest) as Hne.
    specialize (IH m).
    destruct (split_max sep m rest) as [|p ps]; [done|].
    rewrite join_cons, IH. done.
  - specialize (IH (S m)).
    pose proof (split_max_nonempty sep (S m) rest) as Hnil.
    destruct (split_max sep (S m) rest) as [|p ps]; [done|].
    by rewrite join_cons_head, IH.
Qed.

Lemma split_max_length (sep : char) (n : nat) (s : str) :
  length (split_max sep n s) ≤ S n.
Proof.
  revert n; induction s as [|c rest IH]; intros [|m]; simpl; try lia.
  destruct (c =? sep)%N.
  - simpl. specialize (IH m). lia.
  - specialize (IH (S m)).
    destruct (split_max sep (S m) rest); simpl in *; lia.
Qed.

(** *** Whitespace and line boundaries *)

Lemma boundary_isspace (c : char) : is_boundary c = true → isspace c = true.
Proof.
  unfold is_boundary, is_linebreak, isspace, carriage_return.
  rewrite !orb_true_iff, !andb_true_iff, !N.leb_le, !N.eqb_eq.
  intros H.
  destruct (decide (9 ≤ c ∧ c ≤ 13)%N) as [|Hn]; [tauto|].
  destruct (decide (28 ≤ c ∧ c ≤ 32)%N) as [|Hm]; [tauto|].
  assert (c = 133 ∨ c = 8232 ∨ c = 8233)%N as Hc by lia.
  tauto.
Qed.

Lemma newline_boundary : is_boundary newline = true.
Proof. done. Qed.

Lemma split_ws_from_tokens (cur s : str) :
  Forall (λ c, isspace c = false) cur →
  Forall (λ t, t ≠ [] ∧ Forall (λ c, isspace c = false) t)
         (split_ws_from cur s).
Proof.
  revert cur; induction s as [|c rest IH]; intros cur Hcur; simpl.
  - destruct cur as [|d cur]; [constructor|].
    constructor; [|constructor]. split.
    + intros Hr. apply (f_equal length) in Hr.
      rewrite length_reverse in Hr. done.
    + by apply Forall_reverse.
  - destruct (isspace c) eqn:Hc.
    + destruct cur as [|d cur]; [by apply IH|].
      constructor; [|by apply IH]. split.
      * intros Hr. apply (f_equal length) in Hr.
        rewrite length_reverse in Hr. done.
      * by apply Forall_reverse.
    + apply IH. by constructor.
Qed.

(** The tokens of [s.split()] are nonempty and free of whitespace. *)
Lemma split_ws_tokens (s : str) :
  Forall (λ t, t ≠ [] ∧ Forall (λ c, isspace c = false) t) (split_ws s).
Proof. by apply split_ws_from_tokens. Qed.

Lemma split_ws_no_newline (s t : str) : t ∈ split_ws s → newline ∉ t.
Proof.
  intros Ht Hn.
  pose proof (split_ws_tokens s) as Hall.
  rewrite Forall_forall in Hall. destruct (Hall t Ht) as [_ Hsp].
  rewrite Forall_forall in Hsp. by specialize (Hsp _ Hn).
Qed.

Lemma splitlines_from_lines (cur s : str) :
  Forall (λ c, is_boundary c = false) cur →
  Forall (Forall (λ c, is_boundary c = false)) (splitlines_from cur s).
Proof.
  revert cur.
  induction s as [s IH] using (well_founded_induction
    (well_founded_ltof _ (@length char))).
  intros cur Hcur. destruct s as [|c rest]; simpl.
  - destruct cur; [constructor|].
    constructor; [by apply Forall_reverse|constructor].
  - destruct (N.eqb_spec c carriage_return) as [->|Hcr].
    + destruct rest as [|d rest'].
      * constructor; [by apply Forall_reverse|constructor].
      * destruct (d =? newline)%N.
        -- constructor; [by apply Forall_reverse|].
           apply IH; [unfold ltof; simpl; lia|constructor].
        -- constructor; [by apply Forall_reverse|].
           apply IH; [unfold ltof; simpl; lia|constructor].
    + destruct (is_linebreak c) eqn:Hlb.
      * constructor; [by apply Forall_reverse|].
        apply IH; [unfold ltof; simpl; lia|constructor].
      * apply IH; [unfold ltof; simpl; lia|].
        constructor; [|done]. unfold is_boundary.
        rewrite Hlb, orb_false_r. by apply N.eqb_neq.
Qed.

(** No line of [s.splitlines()] holds a line boundary. *)
Lemma splitlines_lines (s : str) :
  Forall (Forall (λ c, is_boundary c = false)) (splitlines s).
Proof. apply splitlines_from_lines. constructor. Qed.

Lemma splitlines_no_newline (s line : str) :
  line ∈ splitlines s → newline ∉ line.
Proof.
  intros Hl Hn.
  pose proof (splitlines_lines s) as Hall.
  rewrite Forall_forall in Hall. specialize (Hall _ Hl).
  rewrite Forall_forall in Hall. by specialize (Hall _ Hn).
Qed.

(** *** Prefixes, stripping and replacing *)

Lemma startswith_app (p t : str) : startswith (p ++ t) p = true.
Proof. induction p as [|x p IH]; [done|]. simpl. by rewrite N.eqb_refl. Qed.

Lemma startswith_inv (s p : str) :
  startswith s p = true → ∃ t, s = p ++ t.
Proof.
  revert s; induction p as [|x p IH]; intros s; [by exists s|].
  destruct s as [|y s]; [done|]. simpl.
  intros [Hxy Hs]%andb_true_iff. apply N.eqb_eq in Hxy as ->.
  destruct (IH _ Hs) as [t ->]. by exists t.
Qed.

Lemma lstrip_split (s : str) :
  ∃ ws, Forall (λ c, isspace c = true) ws ∧ s = ws ++ lstrip s.
Proof.
  induction s as [|c s (ws & Hws & IH)]; [by exists []|].
  simpl. destruct (isspace c) eqn:Hc.
  - exists (c :: ws). split; [by constructor|]. simpl. by f_equal.
  - by exists [].
Qed.

Lemma rstrip_prefix (s : str) : ∃ t, s = rstrip s ++ t.
Proof.
  unfold rstrip. destruct (lstrip_split (reverse s)) as (ws & _ & Hs).
  exists (reverse ws).
  rewrite <- reverse_app, <- Hs. by rewrite reverse_involutive.
Qed.

Lemma replace_first_unfold (old new s : str) :
  replace_first old new s
  = if startswith s old then new ++ drop (length old) s
    else match s with
         | [] => []
         | c :: rest => c :: replace_first old new rest
         end.
Proof. by destruct s. Qed.

Lemma replace_first_skip (old new ws s : str) (x : char) (old' : str) :
  old = x :: old' →
  Forall (λ c, c ≠ x) ws →
  replace_first old new (ws ++ s) = ws ++ replace_first old new s.
Proof.
  intros -> Hws. induction Hws as [|c ws Hc Hws IH]; [done|].
  simpl. destruct (N.eqb_spec x c) as [->|_]; [done|].
  simpl. by rewrite <- IH.
Qed.

Lemma elem_of_replace_first (old new s : str) (c : char) :
  c ∈ replace_first old new s → c ∈ new ∨ c ∈ s.
Proof.
  induction s as [|d s IH].
  - simpl. destruct (startswith [] old); [|by intros ?%elem_of_nil].
    rewrite elem_of_app. intros [?|Hc]; [by left|].
    right. by apply (subseteq_drop (length old)).
  - rewrite replace_first_unfold.
    destruct (startswith (d :: s) old).
    + rewrite elem_of_app. intros [?|Hc]; [by left|].
      right. by apply (subseteq_drop (length old)).
    + intros [->|Hc]%elem_of_cons; [right; left|].
      destruct (IH Hc); [by left|right; by right].
Qed.

Lemma replace_first_nonempty (old new s : str) :
  new ≠ [] → s ≠ [] → replace_first old new s ≠ [].
Proof.
  intros Hnew Hs. destruct s as [|d s]; [done|].
  rewrite replace_first_unfold.
  destruct (startswith (d :: s) old); [|done].
  by destruct new.
Qed.

(** *** Counting a code point *)

Lemma occurrences_app (c : char) (a b : str) :
  Build.occurrences c (a ++ b)
  = Build.occurrences c a + Build.occurrences c b.
Proof. unfold Build.occurrences. by rewrite filter_app, length_app. Qed.

Lemma occurrences_absent (c : char) (a : str) :
  c ∉ a → Build.occurrences c a = 0.
Proof.
  unfold Build.occurrences. induction a as [|d a IH]; [done|].
  intros [Hne Hc]%not_elem_of_cons.
  rewrite filter_cons_False by congruence. by apply IH.
Qed.

Lemma occurrences_join (c : char) (sep : str) (l : list str) :
  Forall (λ t, c ∉ t) l →
  Build.occurrences c (join sep l)
  = (length l - 1) * Build.occurrences c sep.
Proof.
  induction 1 as [|p l Hp Hl IH]; [done|].
  destruct l as [|q l].
  - simpl. by apply occurrences_absent.
  - rewrite join_cons, !occurrences_app, IH, occurrences_absent by done.
    simpl length. lia.
Qed.

(** *** Splitting a space-joined list of tokens *)

Lemma split_ws_from_token (t cur s : str) :
  Forall (λ c, isspace c = false) t →
  split_ws_from cur (t ++ s) = split_ws_from (reverse t ++ cur) s.
Proof.
  intros Ht. revert cur.
  induction Ht as [|c t Hc Ht IH]; intros cur; [done|].
  simpl. rewrite Hc, IH, reverse_cons. by rewrite <- (assoc_L (++)).
Qed.

(** Tokens joined with single spaces split back into the same tokens. *)
Lemma split_ws_join_space (tokens : list str) :
  Forall (λ t, t ≠ [] ∧ Forall (λ c, isspace c = false) t) tokens →
  split_ws (join [space] tokens) = tokens.
Proof.
  induction 1 as [|t tokens [Hne Ht] Hall IH]; [done|].
  assert (reverse t ≠ []) as Hrev.
  { intros Hr. apply (f_equal length) in Hr.
    rewrite length_reverse in Hr. by destruct t. }
  unfold split_ws in *. destruct tokens as [|u tokens].
  - simpl join. rewrite <- (app_nil_r t) at 1.
    rewrite split_ws_from_token, app_nil_r by done. simpl.
    destruct (reverse t) eqn:Hr; [done|].
    by rewrite <- Hr, reverse_involutive.
  - rewrite join_cons, split_ws_from_token, app_nil_r by done.
    cbn [app split_ws_from]. change (isspace space) with true. cbn match.
    destruct (reverse t) eqn:Hr; [done|].
    by rewrite <- Hr, reverse_involutive, IH.
Qed.

End PyFacts.

(** ** Facts about the script *)

Module BuildFacts.
Import Py Build PyFacts.

(** *** Text that does not end in a line feed *)

Lemma no_trailing_newline_absent (s : str) :
  newline ∉ s → no_trailing_newline s.
Proof.
  intros Hn pre ->. apply Hn. apply elem_of_app. right. left.
Qed.

Lemma no_trailing_newline_app (a b : str) :
  b ≠ [] → no_trailing_newline b → no_trailing_newline (a ++ b).
Proof.
  intros Hb Hclean pre Heq.
  destruct b as [|x b _] using rev_ind; [done|].
  rewrite (assoc_L (++)) in Heq. apply app_inj_tail in Heq as [_ ->].
  by apply (Hclean b).
Qed.

Lemma join_nonempty (sep : str) (p : str) (l : list str) :
  p ≠ [] → join sep (p :: l) ≠ [].
Proof. intros Hp. destruct l; [done|]. rewrite join_cons. by destruct p. Qed.

Lemma join_no_trailing_newline (sep : str) (l : list str) :
  Forall (λ e, e ≠ [] ∧ no_trailing_newline e) l →
  no_trailing_newline (join sep l).
Proof.
  induction 1 as [|p l [Hp Hclean] Hl IH]; [by intros []|].
  destruct l as [|q l]; [done|].
  rewrite join_cons, (assoc_L (++)).
  apply Forall_cons in Hl as [[Hq _] _].
  apply no_trailing_newline_app; [by apply join_nonempty|done].
Qed.

(** *** The parts of a line *)

Lemma lit_space : lit " " = [space].
Proof. done. Qed.

Lemma join_parts_of (line : str) :
  join (lit " ") (parts_of line)
  = replace_first (lit "uv ") (lit "RUN ") line.
Proof. unfold parts_of. rewrite lit_space. apply join_split_max. Qed.

Lemma matches_nonempty (line : str) : matches line = true → line ≠ [].
Proof. by intros H ->. Qed.

Lemma parts_no_newline (line p : str) :
  newline ∉ line → p ∈ parts_of line → newline ∉ p.
Proof.
  intros Hline Hp Hn.
  assert (newline ∈ replace_first (lit "uv ") (lit "RUN ") line) as Hin.
  { rewrite <- join_parts_of. by eapply elem_of_join_part. }
  apply elem_of_replace_first in Hin as [Hin|Hin]; [|done].
  by vm_compute in Hin; repeat (apply elem_of_cons in Hin as [?|Hin];
    [done|]); apply elem_of_nil in Hin.
Qed.

Lemma cmd_parts_no_newline (line : str) :
  newline ∉ line → Forall (λ p, newline ∉ p) (cmd_parts_of line).
Proof.
  intros Hline. apply Forall_forall. intros p Hp.
  apply (parts_no_newline line); [done|].
  by apply (subseteq_take 3).
Qed.

Lemma cmd_parts_length (line : str) :
  has_payload line = true → length (cmd_parts_of line) = 3.
Proof.
  unfold has_payload, cmd_parts_of. intros H%Nat.leb_le.
  rewrite length_take. lia.
Qed.

Lemma elem_of_packages_of (line t : str) :
  t ∈ packages_of line ↔ t ∈ split_ws (payload_of line).
Proof. apply elem_of_sorted_set. Qed.

Lemma packages_tokens (line : str) :
  Forall (λ t, t ≠ [] ∧ newline ∉ t) (packages_of line).
Proof.
  apply Forall_forall. intros t Ht%elem_of_packages_of. split.
  - pose proof (split_ws_tokens (payload_of line)) as Hall.
    rewrite Forall_forall in Hall. by destruct (Hall t Ht).
  - by eapply split_ws_no_newline.
Qed.

Lemma packages_no_newline (line : str) :
  Forall (λ t, newline ∉ t) (packages_of line).
Proof. eapply Forall_impl; [apply packages_tokens|]. by intros t [_ ?]. Qed.

(** *** The loop refines the line-by-line rewriting *)

Lemma process_line_bucket (acc : deps) (line : str) (c : category) :
  bucket c (process_line acc line) = bucket c acc ++ entry_in c line.
Proof.
  unfold entry_in, rewrite_line, process_line, classify.
  fold (matches line). fold (parts_of line).
  destruct (matches line); [|by rewrite app_nil_r].
  fold (has_payload line). destruct (has_payload line).
  - fold (cmd_parts_of line). fold (payload_of line).
    fold (packages_of line).
    destruct (contains (lit "--index-url") line);
      [by destruct c; simpl; rewrite ?app_nil_r|].
    destruct (contains (lit "--no-deps") line);
      [by destruct c; simpl; rewrite ?app_nil_r|].
    destruct (contains (lit "--no-cache") line);
      by destruct c; simpl; rewrite ?app_nil_r.
  - rewrite <- join_parts_of.
    by destruct c; simpl; rewrite ?app_nil_r.
Qed.

Lemma entries_cons (c : category) (line : str) (lines : list str) :
  entries c (line :: lines) = entry_in c line ++ entries c lines.
Proof.
  unfold entries, entry_in. simpl.
  destruct (rewrite_line line) as [[c' e]|]; [|done].
  by destruct (bool_decide (c' = c)).
Qed.

Lemma fold_process_line_bucket (lines : list str) (acc : deps)
    (c : category) :
  bucket c (fold_left process_line lines acc)
  = bucket c acc ++ entries c lines.
Proof.
  revert acc; induction lines as [|line lines IH]; intros acc.
  - simpl. by rewrite app_nil_r.
  - cbn [fold_left]. rewrite IH, process_line_bucket, entries_cons.
    by rewrite (assoc_L (++)).
Qed.

(** Each list the loop fills holds the entries of its category, in the
    order of the lines. *)
Lemma collect_bucket (text : str) (c : category) :
  bucket c (collect text) = entries c (splitlines text).
Proof. unfold collect. rewrite fold_process_line_bucket. by destruct c. Qed.

(** *** The shape of one entry *)

Lemma join_last (sep : str) (l : list str) (t : str) :
  ∃ front, join sep (l ++ [t]) = front ++ t.
Proof.
  destruct l as [|p l]; [by exists []|].
  exists (join sep (p :: l) ++ sep).
  rewrite join_snoc by done. by rewrite (assoc_L (++)).
Qed.

Lemma join_absent (c : char) (sep : str) (l : list str) :
  c ∉ sep → Forall (λ p, c ∉ p) l → c ∉ join sep l.
Proof.
  intros Hsep Hl Hc.
  apply elem_of_join in Hc as [Hc|(p & Hp & Hc)]; [done|].
  rewrite Forall_forall in Hl. by apply (Hl p).
Qed.

Lemma newline_not_space : newline ∉ lit " ".
Proof. by intros [?|?%elem_of_nil]%elem_of_cons. Qed.

Lemma single_line_absent (cmd_parts packages : list str) :
  Forall (λ p, newline ∉ p) cmd_parts →
  Forall (λ t, newline ∉ t) packages →
  newline ∉ single_line cmd_parts packages.
Proof.
  intros Hcmd Hpk. unfold single_line.
  apply join_absent; [apply newline_not_space|].
  apply Forall_app. split; [done|].
  constructor; [|constructor].
  by apply join_absent; [apply newline_not_space|].
Qed.

Lemma single_line_nonempty (cmd_parts packages : list str) :
  cmd_parts ≠ [] → single_line cmd_parts packages ≠ [].
Proof.
  intros Hcmd. unfold single_line. rewrite join_snoc by done.
  intros H. apply app_eq_nil in H as [_ H]. done.
Qed.

Lemma multi_line_nonempty (cmd_parts packages : list str) :
  multi_line cmd_parts packages ≠ [].
Proof.
  unfold multi_line. intros H.
  apply app_eq_nil in H as [_ [H _]%app_eq_nil]. done.
Qed.

Lemma continuation_no_trailing_newline : no_trailing_newline continuation.
Proof.
  intros pre H.
  change continuation
    with ([space; backslash; newline; space; space; space] ++ [space]) in H.
  by apply app_inj_tail in H as [_ ?].
Qed.

Lemma multi_line_no_trailing_newline (cmd_parts packages : list str) :
  Forall (λ t, t ≠ [] ∧ newline ∉ t) packages →
  no_trailing_newline (multi_line cmd_parts packages).
Proof.
  intros Hpk. unfold multi_line.
  destruct packages as [|t front _] using rev_ind.
  - simpl join. rewrite app_nil_r.
    apply no_trailing_newline_app; [done|].
    apply continuation_no_trailing_newline.
  - apply Forall_app in Hpk as [_ [[Ht Hn] _]%Forall_cons].
    destruct (join_last continuation front t) as [pre ->].
    rewrite !(assoc_L (++)).
    apply no_trailing_newline_app; [done|].
    by apply no_trailing_newline_absent.
Qed.

(** Every entry is nonempty and does not end in a line feed. *)
Lemma rewrite_line_entry (line : str) (c : category) (e : str) :
  newline ∉ line → rewrite_line line = Some (c, e) →
  e ≠ [] ∧ no_trailing_newline e.
Proof.
  intros Hline. unfold rewrite_line.
  destruct (matches line) eqn:Hm; [|done].
  destruct (has_payload line) eqn:Hp.
  - pose proof (cmd_parts_length line Hp) as Hlen.
    assert (cmd_parts_of line ≠ []) as Hcmd
      by (intros Hnil; by rewrite Hnil in Hlen).
    assert (∀ k, k ≠ Standard →
      Some (k, single_line (cmd_parts_of line) (packages_of line))
      = Some (c, e) → e ≠ [] ∧ no_trailing_newline e) as Hsingle.
    { intros k _ [= <- <-]. split; [by apply single_line_nonempty|].
      apply no_trailing_newline_absent, single_line_absent.
      - by apply cmd_parts_no_newline.
      - apply packages_no_newline. }
    destruct (classify line); try by apply Hsingle.
    intros [= <- <-]. split; [apply multi_line_nonempty|].
    apply multi_line_no_trailing_newline, packages_tokens.
  - intros [= <- <-]. split.
    + apply replace_first_nonempty; [done|by apply matches_nonempty].
    + apply no_trailing_newline_absent.
      intros [Hin|Hin]%elem_of_replace_first; [|done].
      by vm_compute in Hin; repeat (apply elem_of_cons in Hin as [?|Hin];
        [done|]); apply elem_of_nil in Hin.
Qed.

Lemma entries_clean (c : category) (lines : list str) :
  Forall (λ line, newline ∉ line) lines →
  Forall (λ e, e ≠ [] ∧ no_trailing_newline e) (entries c lines).
Proof.
  intros Hlines. apply Forall_forall. intros e He.
  apply list_elem_of_omap in He as (line & Hin & He).
  rewrite Forall_forall in Hlines.
  destruct (rewrite_line line) as [[c' e']|] eqn:Hr; [|done].
  destruct (bool_decide (c' = c)); [|done].
  injection He as <-. by eapply rewrite_line_entry; [apply Hlines|].
Qed.

Lemma entries_perm (c : category) (l1 l2 : list str) :
  l1 ≡ₚ l2 → entries c l1 ≡ₚ entries c l2.
Proof. intros Hperm. unfold entries. by rewrite Hperm. Qed.

Lemma splitlines_all_no_newline (text : str) :
  Forall (λ line, newline ∉ line) (splitlines text).
Proof. apply Forall_forall. intros line. apply splitlines_no_newline. Qed.

Lemma combine_entries (text : str) :
  combine (collect text)
  = join [newline]
      (sorted (entries Standard (splitlines text))
       ++ sorted (entries IndexURL (splitlines text))
       ++ sorted (entries NoDeps (splitlines text))
       ++ sorted (entries NoCache (splitlines text))).
Proof.
  unfold combine. rewrite <- !collect_bucket. done.
Qed.

Lemma get_dependencies_ok (shell : str → CompletedProcess)
    (error_text : str → Z → str) (standalone : bool) :
  returncode (shell (build_command standalone)) = 0%Z →
  get_dependencies shell error_text standalone
  = ([], Returns (combine (collect
                    (stdout (shell (build_command standalone)))))).
Proof.
  intros Hrc. unfold get_dependencies, subprocess_run_check.
  by rewrite Hrc.
Qed.

(** *** The order of the output *)

(** Claim C1: for every captured text, [get_dependencies] returns the
    entries of the Standard category, then those of IndexURL, then NoDeps,
    then NoCache; each group is a rearrangement of the rewritten lines of
    its category in lexicographic order of the whole entry; the groups are
    joined with single line feeds and the text does not end in one. *)
Theorem get_dependencies_grouped_in_order
    (shell : str → CompletedProcess) (error_text : str → Z → str)
    (standalone : bool) :
  returncode (shell (build_command standalone)) = 0%Z →
  let lines := splitlines (stdout (shell (build_command standalone))) in
  ∃ std idx nd nc out,
    get_dependencies shell error_text standalone = ([], Returns out)
    ∧ out = join [newline] (std ++ idx ++ nd ++ nc)
    ∧ (std ≡ₚ entries Standard lines ∧ StronglySorted str_le std)
    ∧ (idx ≡ₚ entries IndexURL lines ∧ StronglySorted str_le idx)
    ∧ (nd ≡ₚ entries NoDeps lines ∧ StronglySorted str_le nd)
    ∧ (nc ≡ₚ entries NoCache lines ∧ StronglySorted str_le nc)
    ∧ no_trailing_newline out.
Proof.
  intros Hrc lines.
  exists (sorted (entries Standard lines)), (sorted (entries IndexURL lines)),
    (sorted (entries NoDeps lines)), (sorted (entries NoCache lines)).
  eexists. split; [|split; [reflexivity|]].
  { rewrite get_dependencies_ok by done. by rewrite combine_entries. }
  repeat split; try apply sorted_perm; try apply sorted_strongly.
  apply join_no_trailing_newline.
  rewrite !Forall_app, !sorted_perm.
  repeat split; apply entries_clean, splitlines_all_no_newline.
Qed.

(** Claim C2: two captured texts whose lines are rearrangements of each
    other give the same result. *)
Theorem get_dependencies_line_order_irrelevant
    (shell1 shell2 : str → CompletedProcess) (error_text : str → Z → str)
    (standalone : bool) :
  returncode (shell1 (build_command standalone)) = 0%Z →
  returncode (shell2 (build_command standalone)) = 0%Z →
  splitlines (stdout (shell1 (build_command standalone)))
    ≡ₚ splitlines (stdout (shell2 (build_command standalone))) →
  get_dependencies shell1 error_text standalone
  = get_dependencies shell2 error_text standalone.
Proof.
  intros Hrc1 Hrc2 Hperm.
  rewrite !get_dependencies_ok, !combine_entries by done.
  assert (∀ c,
    sorted (entries c (splitlines (stdout (shell1 (build_command standalone)))))
    = sorted (entries c (splitlines (stdout (shell2 (build_command standalone))))))
    as Heq by (intros c; by apply sorted_of_perm, entries_perm).
  by rewrite !Heq.
Qed.

(** *** One line, one entry *)

Lemma rewrite_line_payload (line : str) :
  matches line = true → has_payload line = true →
  rewrite_line line = Some (classify line, entry_of line).
Proof.
  intros Hm Hp. unfold rewrite_line, entry_of. rewrite Hm, Hp.
  by destruct (classify line).
Qed.

Lemma process_line_payload (acc : deps) (line : str) (c : category) :
  matches line = true → has_payload line = true →
  bucket c (process_line acc line)
  = bucket c acc
    ++ (if bool_decide (c = classify line) then [entry_of line] else []).
Proof.
  intros Hm Hp. rewrite process_line_bucket. unfold entry_in.
  rewrite rewrite_line_payload by done.
  destruct (decide (c = classify line)) as [->|Hne].
  - by rewrite !bool_decide_eq_true_2.
  - by rewrite !bool_decide_eq_false_2.
Qed.

Lemma total_process_line (acc : deps) (line : str) :
  total (process_line acc line)
  = total acc + (if matches line then 1 else 0).
Proof.
  unfold total.
  change (standard_deps ?d) with (bucket Standard d).
  change (torch_deps ?d) with (bucket IndexURL d).
  change (no_deps ?d) with (bucket NoDeps d).
  change (no_cache ?d) with (bucket NoCache d).
  rewrite !process_line_bucket, !length_app. unfold entry_in, rewrite_line.
  destruct (matches line); [|simpl; lia].
  destruct (has_payload line); [destruct (classify line)|]; simpl; lia.
Qed.

Lemma total_fold (lines : list str) (acc : deps) :
  total (fold_left process_line lines acc)
  = total acc + length (filter (λ l, matches l = true) lines).
Proof.
  revert acc; induction lines as [|line lines IH]; intros acc; [simpl; lia|].
  cbn [fold_left]. rewrite IH, total_process_line.
  destruct (matches line) eqn:Hm.
  - rewrite filter_cons_True by done. simpl. lia.
  - rewrite filter_cons_False by (by rewrite Hm). lia.
Qed.

Lemma join_cons_nonempty (sep p : str) (l : list str) :
  l ≠ [] → join sep (p :: l) = p ++ sep ++ join sep l.
Proof. by destruct l. Qed.

Lemma join_app_join (sep : str) (front back : list str) :
  back ≠ [] → join sep (front ++ [join sep back]) = join sep (front ++ back).
Proof.
  intros Hback. induction front as [|p front IH]; [done|].
  rewrite <- !app_comm_cons, !join_cons_nonempty, IH; [done| |].
  - intros [_ ?]%app_eq_nil. done.
  - intros [_ ?]%app_eq_nil. done.
Qed.

Lemma continuation_join (packages : list str) :
  packages ≠ [] →
  continuation ++ join continuation packages
  = concat ((λ t, continuation ++ t) <$> packages).
Proof.
  induction packages as [|t packages IH]; [done|]. intros _.
  destruct packages as [|u packages].
  - simpl. by rewrite app_nil_r.
  - rewrite join_cons, fmap_cons, concat_cons.
    rewrite <- IH by done. by rewrite <- (assoc_L (++)).
Qed.

Lemma matches_decompose (line : str) :
  matches line = true →
  ∃ ws rest, Forall (λ c, isspace c = true) ws
             ∧ line = ws ++ lit "uv pip" ++ rest.
Proof.
  unfold matches, strip. intros Hm.
  destruct (lstrip_split line) as (ws & Hws & Hline).
  destruct (rstrip_prefix (lstrip line)) as [t Ht].
  apply startswith_inv in Hm as [t' Hm].
  exists ws, (t' ++ t). split; [done|].
  rewrite Hline at 1. rewrite Ht at 1. rewrite Hm.
  by rewrite <- !(assoc_L (++)).
Qed.

Lemma replace_uv_run (ws rest : str) :
  Forall (λ c, isspace c = true) ws →
  replace_first (lit "uv ") (lit "RUN ") (ws ++ lit "uv pip" ++ rest)
  = ws ++ lit "RUN pip" ++ rest.
Proof.
  intros Hws.
  rewrite (replace_first_skip _ _ ws _ 117%N (lit "v ")); [|done|].
  - by f_equal.
  - eapply Forall_impl; [exact Hws|]. by intros c Hc ->.
Qed.

Lemma packages_split_back (line : str) :
  split_ws (join (lit " ") (packages_of line)) = packages_of line.
Proof.
  apply split_ws_join_space, Forall_forall.
  intros t Ht%elem_of_packages_of.
  pose proof (split_ws_tokens (payload_of line)) as Hall.
  rewrite Forall_forall in Hall. by apply Hall.
Qed.

(** *** The claims about single lines *)

(** Claim C3, evaluated at the line of the repository's test: the flag and
    the quoted specifier are sorted together as tokens, the apostrophe comes
    before the hyphen, and the one entry, in the NoDeps list, has the
    specifier first and the flag last; the result does not contain the flag
    followed by the specifier. *)
Theorem no_deps_flag_sorted_after_quoted_specifier :
  let line := lit "uv pip install --no-deps 'llama-stack-client==1.2.3'" in
  collect line
  = {| standard_deps := [];
       torch_deps := [];
       no_deps := [lit "RUN pip install 'llama-stack-client==1.2.3' --no-deps"];
       no_cache := [] |}
  ∧ contains (lit "--no-deps 'llama-stack-client==1.2.3'")
      (combine (collect line)) = false.
Proof. by vm_compute. Qed.

(** Claim C4 as stated fails: a Standard line with the two packages a and
    b is rewritten with two line breaks, one before each package. *)
Lemma standard_two_packages_two_line_breaks :
  let line := lit "uv pip install a b" in
  let entry :=
    lit "RUN pip install " ++ [backslash; newline] ++ lit "    a "
    ++ [backslash; newline] ++ lit "    b" in
  matches line = true
  ∧ classify line = Standard
  ∧ split_ws (payload_of line) = [lit "a"; lit "b"]
  ∧ standard_deps (collect line) = [entry]
  ∧ occurrences newline entry = 2
  ∧ occurrences newline entry ≠ 1.
Proof. by vm_compute. Qed.

(** Claim C4, amended: a Standard line with at least one payload token is
    rewritten as the command tokens followed, for each distinct payload
    token in order, by a continuation (space, backslash, line feed, four
    spaces) and the token; the entry holds as many line breaks as there are
    distinct payload tokens, none of them inside the command tokens, hence
    exactly one when there is one distinct token. *)
Theorem standard_entry_one_break_per_package
    (text line : str) (acc : deps) :
  line ∈ splitlines text →
  matches line = true → has_payload line = true →
  classify line = Standard →
  split_ws (payload_of line) ≠ [] →
  ∃ entry,
    (∀ c, bucket c (process_line acc line)
          = bucket c acc ++ (if bool_decide (c = Standard) then [entry] else []))
    ∧ entry = join (lit " ") (cmd_parts_of line)
              ++ concat ((λ t, continuation ++ t) <$> packages_of line)
    ∧ occurrences newline (join (lit " ") (cmd_parts_of line)) = 0
    ∧ occurrences newline entry = length (packages_of line)
    ∧ 1 ≤ length (packages_of line)
    ∧ (length (packages_of line) = 1 → occurrences newline entry = 1).
Proof.
  intros Hin Hm Hp Hc Htok.
  apply splitlines_no_newline in Hin.
  assert (packages_of line ≠ []) as Hpk
    by (intros H; by apply sorted_set_nil_inv in H).
  assert (occurrences newline (join (lit " ") (cmd_parts_of line)) = 0)
    as Hcmd.
  { apply occurrences_absent, join_absent;
      [apply newline_not_space|by apply cmd_parts_no_newline]. }
  assert (occurrences newline (multi_line (cmd_parts_of line) (packages_of line))
          = length (packages_of line)) as Hcount.
  { unfold multi_line.
    rewrite !occurrences_app, Hcmd, occurrences_join
      by apply packages_no_newline.
    change (occurrences newline continuation) with 1.
    destruct (packages_of line); [done|simpl; lia]. }
  exists (multi_line (cmd_parts_of line) (packages_of line)).
  split; [|split; [|split; [done|split; [done|split]]]].
  - intros c. rewrite process_line_payload by done.
    unfold entry_of. by rewrite Hc.
  - unfold multi_line. by rewrite continuation_join.
  - destruct (packages_of line); [done|simpl; lia].
  - intros Hone. by rewrite Hcount.
Qed.

(** Claim C5: a line that matches and has a payload adds one entry to the
    list of exactly one category, the one found by testing the line for
    the index-url flag, then the no-deps flag, then the no-cache flag, with
    Standard when none occurs, and leaves the three other lists as they
    were; over a whole text the four lists together hold as many entries as
    there are matching lines. *)
Theorem matching_line_in_exactly_one_category (acc : deps) (line : str) :
  matches line = true → has_payload line = true →
  ∃ entry,
    rewrite_line line = Some (classify line, entry)
    ∧ (∀ c, bucket c (process_line acc line)
            = bucket c acc
              ++ (if bool_decide (c = classify line) then [entry] else []))
    ∧ (∀ c, c ≠ classify line →
            bucket c (process_line acc line) = bucket c acc)
    ∧ (∀ text, total (collect text)
               = length (filter (λ l, matches l = true) (splitlines text))).
Proof.
  intros Hm Hp. exists (entry_of line).
  split; [by apply rewrite_line_payload|].
  split; [intros c; by apply process_line_payload|].
  split.
  - intros c Hne. rewrite process_line_payload by done.
    by rewrite bool_decide_eq_false_2, app_nil_r.
  - intros text. unfold collect. by rewrite total_fold.
Qed.

(** Claim C6: for a line that matches and has a payload, the entry is
    assembled from the command tokens and a list of packages in which every
    token of the payload, split on whitespace, occurs exactly once, however
    often it occurs in the payload, and in which nothing else occurs; two
    tokens are the same element only when they are the same sequence of
    code points, so tokens that differ in any code point are both there.
    Joined with spaces, the list splits back into itself. *)
Theorem payload_tokens_deduplicated (acc : deps) (line : str) :
  matches line = true → has_payload line = true →
  let tokens := split_ws (payload_of line) in
  ∃ packages entry,
    (∀ c, bucket c (process_line acc line)
          = bucket c acc
            ++ (if bool_decide (c = classify line) then [entry] else []))
    ∧ entry = match classify line with
              | Standard => multi_line (cmd_parts_of line) packages
              | _ => single_line (cmd_parts_of line) packages
              end
    ∧ NoDup packages
    ∧ (∀ t, t ∈ tokens → length (filter (λ u, u = t) packages) = 1)
    ∧ (∀ t, t ∈ packages → t ∈ tokens)
    ∧ (∀ t u, t ∈ tokens → u ∈ tokens → t ≠ u →
              ∃ i j, i ≠ j ∧ packages !! i = Some t ∧ packages !! j = Some u)
    ∧ split_ws (join (lit " ") packages) = packages.
Proof.
  intros Hm Hp tokens.
  exists (packages_of line), (entry_of line).
  split; [intros c; by apply process_line_payload|].
  split; [done|].
  split; [apply NoDup_sorted_set|].
  split; [intros t Ht; by apply sorted_set_count|].
  split; [intros t Ht; by apply elem_of_packages_of|].
  split; [|apply packages_split_back].
  intros t u Ht%elem_of_packages_of Hu%elem_of_packages_of Hne.
  apply list_elem_of_lookup in Ht as [i Hi].
  apply list_elem_of_lookup in Hu as [j Hj].
  exists i, j. split; [|done].
  intros ->. congruence.
Qed.

(** Claim C7 as stated fails: the line without a payload is not emitted
    as it is, its tool name is replaced. *)
Lemma bare_install_line_is_rewritten :
  let line := lit "uv pip install" in
  matches line = true
  ∧ has_payload line = false
  ∧ standard_deps (collect line) = [lit "RUN pip install"]
  ∧ standard_deps (collect line) ≠ [line].
Proof. by vm_compute. Qed.

(** Claim C7, amended: a matching line that splits into fewer than four
    parts is appended to the Standard list, whatever flags it holds, with
    the tool name that follows its leading whitespace replaced by RUN and
    every other code point as it was; the other lists are left alone. *)
Theorem short_line_passed_to_standard (acc : deps) (line : str) :
  matches line = true → has_payload line = false →
  ∃ ws rest,
    Forall (λ c, isspace c = true) ws
    ∧ line = ws ++ lit "uv pip" ++ rest
    ∧ process_line acc line
      = {| standard_deps := standard_deps acc ++ [ws ++ lit "RUN pip" ++ rest];
           torch_deps := torch_deps acc;
           no_deps := no_deps acc;
           no_cache := no_cache acc |}.
Proof.
  intros Hm Hp.
  destruct (matches_decompose line Hm) as (ws & rest & Hws & Hline).
  exists ws, rest. split; [done|]. split; [done|].
  unfold process_line. fold (matches line). fold (parts_of line).
  fold (has_payload line). rewrite Hm, Hp, join_parts_of.
  by rewrite Hline at 1; rewrite replace_uv_run.
Qed.

(** Claim C10: for a line of the IndexURL, NoDeps or NoCache category the
    entry is the three command parts and then every distinct payload token,
    flags and package specifiers alike, in lexicographic order, all joined
    with single spaces; no token keeps a place of its own. *)
Theorem flagged_line_tokens_sorted_together (acc : deps) (line : str) :
  matches line = true → has_payload line = true →
  classify line ≠ Standard →
  let cmd_parts := take 3 (parts_of line) in
  let tokens := split_ws (payload_of line) in
  ∃ packages entry,
    (∀ c, bucket c (process_line acc line)
          = bucket c acc
            ++ (if bool_decide (c = classify line) then [entry] else []))
    ∧ entry = join (lit " ") (cmd_parts ++ [join (lit " ") packages])
    ∧ (tokens ≠ [] → entry = join (lit " ") (cmd_parts ++ packages))
    ∧ length cmd_parts = 3
    ∧ StronglySorted str_le packages
    ∧ NoDup packages
    ∧ (∀ t, t ∈ packages ↔ t ∈ tokens).
Proof.
  intros Hm Hp Hc cmd_parts tokens.
  exists (packages_of line), (entry_of line).
  split; [intros c; by apply process_line_payload|].
  assert (entry_of line
          = join (lit " ") (cmd_parts ++ [join (lit " ") (packages_of line)]))
    as Hentry by (unfold entry_of; by destruct (classify line)).
  split; [done|]. split.
  - intros Htok. rewrite Hentry. apply join_app_join.
    intros H. by apply sorted_set_nil_inv in H.
  - split; [by apply cmd_parts_length|].
    split; [apply sorted_set_strongly|].
    split; [apply NoDup_sorted_set|].
    intros t. apply elem_of_packages_of.
Qed.

(** *** The template and the empty result *)

Lemma format_cons_app (c : char) (v : str) (r : option format_result) :
  format_cons c (format_app v r) = format_app (c :: v) r.
Proof. by destruct r as [[]|]. Qed.

Lemma format_from_plain (dependencies front tpl : str) :
  Forall (λ c, c ≠ lbrace ∧ c ≠ rbrace) front →
  format_from None dependencies (front ++ tpl)
  = format_app front (format_from None dependencies tpl).
Proof.
  induction 1 as [|c front [Hl Hr] Hfront IH].
  - cbn [app]. by destruct (format_from None dependencies tpl) as [[]|].
  - cbn [app format_from].
    apply N.eqb_neq in Hl, Hr. rewrite Hl, Hr, IH.
    apply format_cons_app.
Qed.

Lemma format_from_field (dependencies tpl : str) :
  format_from None dependencies (lit "{dependencies}" ++ tpl)
  = format_app dependencies (format_from None dependencies tpl).
Proof. done. Qed.

(** A template with one replacement field for the dependencies and no
    other brace is formatted by putting the text in the place of the
    field. *)
Lemma format_one_field (dependencies front back : str) :
  Forall (λ c, c ≠ lbrace ∧ c ≠ rbrace) front →
  Forall (λ c, c ≠ lbrace ∧ c ≠ rbrace) back →
  format (front ++ lit "{dependencies}" ++ back) dependencies
  = Some (Formatted (front ++ dependencies ++ back)).
Proof.
  intros Hfront Hback. unfold format.
  rewrite format_from_plain, format_from_field by done.
  rewrite <- (app_nil_r back) at 1.
  rewrite format_from_plain by done.
  simpl. by rewrite app_nil_r.
Qed.

Lemma entries_no_match (c : category) (lines : list str) :
  Forall (λ line, matches line = false) lines → entries c lines = [].
Proof.
  induction 1 as [|line lines Hm Hlines IH]; [done|].
  rewrite entries_cons, IH. unfold entry_in, rewrite_line. by rewrite Hm.
Qed.

(** Claim C8: when no line of the captured text starts with the install
    prefix, [get_dependencies] returns the empty string; given that string
    and a template with one dependencies field and no other brace,
    [generate_containerfile] returns normally and writes the banner
    followed by the template with nothing in the place of the field. *)
Theorem no_matching_line_empty_result
    (shell : str → CompletedProcess) (error_text : str → Z → str)
    (standalone unified : bool) (fs : gmap string (list N))
    (front back : str) :
  returncode (shell (build_command standalone)) = 0%Z →
  Forall (λ line, matches line = false)
         (splitlines (stdout (shell (build_command standalone)))) →
  fs !! template_path = Some (front ++ lit "{dependencies}" ++ back) →
  Forall (λ c, c ≠ lbrace ∧ c ≠ rbrace) front →
  Forall (λ c, c ≠ lbrace ∧ c ≠ rbrace) back →
  get_dependencies shell error_text standalone = ([], Returns [])
  ∧ generate_containerfile fs [] standalone unified
    = Some ([lit "Successfully generated distribution/Containerfile"],
            Returns (<[output_path := warning standalone unified
                                      ++ front ++ back]> fs)).
Proof.
  intros Hrc Hlines Htpl Hfront Hback. split.
  - rewrite get_dependencies_ok, combine_entries by done.
    by rewrite !entries_no_match.
  - unfold generate_containerfile. rewrite Htpl.
    change (rstrip []) with (@nil N).
    by rewrite format_one_field.
Qed.

(** *** The version check *)

Lemma pinned_version_base : pinned_version BASE_REQUIREMENTS = Some (lit "0.2.18").
Proof. done. Qed.

(** Claim C9: [check_llama_stack_version] leaves through [sys.exit] with
    a nonzero status exactly when the version command exits with status
    zero and its output, stripped, is not the version pinned in
    [BASE_REQUIREMENTS], which is 0.2.18; when the command exits with a
    nonzero status the function prints the warning and the line that says
    it continues, and returns; it never lets an exception escape. *)
Theorem version_check_exits_exactly_on_mismatch
    (shell : str → CompletedProcess) (error_text : str → Z → str) :
  let proc := shell (lit "llama stack --version") in
  let run := check_llama_stack_version shell error_text in
  pinned_version BASE_REQUIREMENTS = Some (lit "0.2.18")
  ∧ ((∃ code, code ≠ 0%Z ∧ result run = SysExit code)
     ↔ returncode proc = 0%Z ∧ strip (stdout proc) ≠ lit "0.2.18")
  ∧ (returncode proc ≠ 0%Z →
     run = ([lit "Warning: Could not check llama-stack version: "
             ++ error_text (lit "['llama stack --version']") (returncode proc);
             lit "Continuing without version validation..."],
            Returns tt))
  ∧ (returncode proc = 0%Z → strip (stdout proc) = lit "0.2.18" →
     run = ([], Returns tt))
  ∧ result run ≠ Raises.
Proof.
  intros proc run. split; [done|].
  subst run. unfold check_llama_stack_version, subprocess_run_check.
  fold proc. rewrite pinned_version_base.
  change (truthy (Some (lit "0.2.18"))) with true.
  destruct (Z.eqb_spec (returncode proc) 0) as [Hrc|Hrc].
  - destruct (decide (strip (stdout proc) = lit "0.2.18")) as [Heq|Hne].
    + rewrite bool_decide_eq_true_2 by congruence.
      cbn [andb negb]. unfold ret, result. cbn [snd].
      split; [|split; [done|split; [done|done]]].
      split.
      * by intros (code & Hcode & [=]).
      * by intros [_ ?].
    + rewrite bool_decide_eq_false_2 by congruence.
      cbn [andb negb]. unfold result, print, sys_exit, bind. cbn [snd].
      split; [|split; [done|split; [done|done]]].
      split; [done|]. intros _. by exists 1%Z.
  - unfold result, print, bind. cbn [snd].
    split; [|split; [done|split; [done|done]]].
    split.
    + by intros (code & Hcode & [=]).
    + by intros [? _].
Qed.

(** *** The theorems at sample inputs *)

Lemma get_dependencies_grouped_in_order_witness :
  returncode (answering 0 sample_output (build_command false)) = 0%Z
  ∧ ∃ std idx nd nc out,
      get_dependencies (answering 0 sample_output) plain_error_text false
      = ([], Returns out)
      ∧ out = join [newline] (std ++ idx ++ nd ++ nc)
      ∧ (std ≡ₚ entries Standard (splitlines sample_output)
         ∧ StronglySorted str_le std)
      ∧ (idx ≡ₚ entries IndexURL (splitlines sample_output)
         ∧ StronglySorted str_le idx)
      ∧ (nd ≡ₚ entries NoDeps (splitlines sample_output)
         ∧ StronglySorted str_le nd)
      ∧ (nc ≡ₚ entries NoCache (splitlines sample_output)
         ∧ StronglySorted str_le nc)
      ∧ no_trailing_newline out.
Proof.
  split; [reflexivity|].
  apply (get_dependencies_grouped_in_order
           (answering 0 sample_output) plain_error_text false).
  reflexivity.
Defined.

Lemma sample_lines_rearranged :
  splitlines sample_output ≡ₚ splitlines sample_output_reordered.
Proof.
  apply (bool_decide_unpack _). by vm_compute.
Defined.

Lemma get_dependencies_line_order_irrelevant_witness :
  returncode (answering 0 sample_output (build_command true)) = 0%Z
  ∧ returncode (answering 0 sample_output_reordered (build_command true))
    = 0%Z
  ∧ splitlines sample_output ≡ₚ splitlines sample_output_reordered
  ∧ get_dependencies (answering 0 sample_output) plain_error_text true
    = get_dependencies (answering 0 sample_output_reordered)
        plain_error_text true.
Proof.
  split; [reflexivity|]. split; [reflexivity|].
  split; [apply sample_lines_rearranged|].
  apply (get_dependencies_line_order_irrelevant
           (answering 0 sample_output) (answering 0 sample_output_reordered)
           plain_error_text true);
    [reflexivity|reflexivity|apply sample_lines_rearranged].
Defined.

Lemma standard_entry_one_break_per_package_witness :
  sample_standard_line ∈ splitlines sample_output
  ∧ matches sample_standard_line = true
  ∧ has_payload sample_standard_line = true
  ∧ classify sample_standard_line = Standard
  ∧ split_ws (payload_of sample_standard_line) ≠ []
  ∧ ∃ entry,
      (∀ c, bucket c (process_line no_lines sample_standard_line)
            = bucket c no_lines
              ++ (if bool_decide (c = Standard) then [entry] else []))
      ∧ occurrences newline entry = length (packages_of sample_standard_line).
Proof.
  assert (sample_standard_line ∈ splitlines sample_output) as Hin
    by (apply (bool_decide_unpack _); by vm_compute).
  assert (split_ws (payload_of sample_standard_line) ≠ []) as Htok
    by (apply (bool_decide_unpack _); by vm_compute).
  split; [exact Hin|]. split; [reflexivity|]. split; [reflexivity|].
  split; [reflexivity|]. split; [exact Htok|].
  destruct (standard_entry_one_break_per_package
              sample_output sample_standard_line no_lines
              Hin eq_refl eq_refl eq_refl Htok)
    as (entry & Hbucket & _ & _ & Hcount & _).
  exists entry. split; [exact Hbucket|exact Hcount].
Defined.

Lemma matching_line_in_exactly_one_category_witness :
  matches sample_no_deps_line = true
  ∧ has_payload sample_no_deps_line = true
  ∧ classify sample_no_deps_line = NoDeps
  ∧ ∃ entry,
      rewrite_line sample_no_deps_line = Some (NoDeps, entry)
      ∧ ∀ c, bucket c (process_line no_lines sample_no_deps_line)
             = bucket c no_lines
               ++ (if bool_decide (c = NoDeps) then [entry] else []).
Proof.
  split; [reflexivity|]. split; [reflexivity|]. split; [reflexivity|].
  destruct (matching_line_in_exactly_one_category
              no_lines sample_no_deps_line eq_refl eq_refl)
    as (entry & Hrewrite & Hbucket & _).
  exists entry. split; [exact Hrewrite|exact Hbucket].
Defined.

Lemma payload_tokens_deduplicated_witness :
  matches sample_standard_line = true
  ∧ has_payload sample_standard_line = true
  ∧ split_ws (payload_of sample_standard_line)
    = [lit "pillow"; lit "'fastapi==1.0'"; lit "aiosqlite"; lit "pillow"]
  ∧ ∃ packages,
      NoDup packages
      ∧ (∀ t, t ∈ split_ws (payload_of sample_standard_line) →
              length (filter (λ u, u = t) packages) = 1)
      ∧ (∀ t, t ∈ packages → t ∈ split_ws (payload_of sample_standard_line)).
Proof.
  split; [reflexivity|]. split; [reflexivity|]. split; [reflexivity|].
  destruct (payload_tokens_deduplicated
              no_lines sample_standard_line eq_refl eq_refl)
    as (packages & entry & _ & _ & Hnodup & Hcount & Hsub & _).
  exists packages. split; [exact Hnodup|]. split; [exact Hcount|exact Hsub].
Defined.

Lemma short_line_passed_to_standard_witness :
  matches sample_short_line = true
  ∧ has_payload sample_short_line = false
  ∧ ∃ ws rest,
      Forall (λ c, isspace c = true) ws
      ∧ sample_short_line = ws ++ lit "uv pip" ++ rest
      ∧ process_line no_lines sample_short_line
        = {| standard_deps := [] ++ [ws ++ lit "RUN pip" ++ rest];
             torch_deps := []; no_deps := []; no_cache := [] |}.
Proof.
  split; [reflexivity|]. split; [reflexivity|].
  apply (short_line_passed_to_standard no_lines sample_short_line);
    reflexivity.
Defined.

Lemma no_matching_line_empty_result_witness :
  returncode (answering 0 (lit "Collecting dependencies")
                (build_command false)) = 0%Z
  ∧ Forall (λ line, matches line = false)
      (splitlines (lit "Collecting dependencies"))
  ∧ sample_fs !! template_path
    = Some (sample_front ++ lit "{dependencies}" ++ sample_back)
  ∧ get_dependencies (answering 0 (lit "Collecting dependencies"))
      plain_error_text false = ([], Returns [])
  ∧ generate_containerfile sample_fs [] false true
    = Some ([lit "Successfully generated distribution/Containerfile"],
            Returns (<[output_path := warning false true
                                      ++ sample_front ++ sample_back]>
                       sample_fs)).
Proof.
  assert (Forall (λ line, matches line = false)
            (splitlines (lit "Collecting dependencies"))) as Hlines
    by (apply (bool_decide_unpack _); by vm_compute).
  assert (sample_fs !! template_path
          = Some (sample_front ++ lit "{dependencies}" ++ sample_back))
    as Htpl by apply lookup_singleton_eq.
  split; [reflexivity|]. split; [exact Hlines|]. split; [exact Htpl|].
  apply (no_matching_line_empty_result
           (answering 0 (lit "Collecting dependencies")) plain_error_text
           false true sample_fs sample_front sample_back);
    [reflexivity|exact Hlines|exact Htpl| |];
    apply (bool_decide_unpack _); by vm_compute.
Defined.

Lemma version_check_exits_exactly_on_mismatch_witness :
  returncode (answering 2 [] (lit "llama stack --version")) ≠ 0%Z
  ∧ check_llama_stack_version (answering 2 []) plain_error_text
    = ([lit "Warning: Could not check llama-stack version: "
        ++ plain_error_text (lit "['llama stack --version']") 2%Z;
        lit "Continuing without version validation..."],
       Returns tt)
  ∧ (returncode (answering 0 (lit "0.2.17") (lit "llama stack --version"))
     = 0%Z
     ∧ strip (stdout (answering 0 (lit "0.2.17")
                        (lit "llama stack --version"))) ≠ lit "0.2.18")
  ∧ ∃ code, code ≠ 0%Z
            ∧ result (check_llama_stack_version
                        (answering 0 (lit "0.2.17")) plain_error_text)
              = SysExit code.
Proof.
  assert (returncode (answering 2 [] (lit "llama stack --version")) ≠ 0%Z)
    as Hfail by (apply (bool_decide_unpack _); by vm_compute).
  assert (returncode (answering 0 (lit "0.2.17") (lit "llama stack --version"))
          = 0%Z
          ∧ strip (stdout (answering 0 (lit "0.2.17")
                             (lit "llama stack --version"))) ≠ lit "0.2.18")
    as Hmismatch
    by (split; [reflexivity|apply (bool_decide_unpack _); by vm_compute]).
  split; [exact Hfail|]. split.
  - destruct (version_check_exits_exactly_on_mismatch
                (answering 2 []) plain_error_text)
      as (_ & _ & Hwarn & _).
    exact (Hwarn Hfail).
  - split; [exact Hmismatch|].
    destruct (version_check_exits_exactly_on_mismatch
                (answering 0 (lit "0.2.17")) plain_error_text)
      as (_ & Hexit & _).
    exact (proj2 Hexit Hmismatch).
Defined.

Lemma flagged_line_tokens_sorted_together_witness :
  matches sample_no_deps_line = true
  ∧ has_payload sample_no_deps_line = true
  ∧ classify sample_no_deps_line ≠ Standard
  ∧ ∃ packages entry,
      (∀ c, bucket c (process_line no_lines sample_no_deps_line)
            = bucket c no_lines
              ++ (if bool_decide (c = classify sample_no_deps_line)
                  then [entry] else []))
      ∧ entry = join (lit " ")
                  (take 3 (parts_of sample_no_deps_line)
                   ++ [join (lit " ") packages])
      ∧ StronglySorted str_le packages
      ∧ NoDup packages.
Proof.
  assert (classify sample_no_deps_line ≠ Standard) as Hc
    by (apply (bool_decide_unpack _); by vm_compute).
  split; [reflexivity|]. split; [reflexivity|]. split; [exact Hc|].
  destruct (flagged_line_tokens_sorted_together
              no_lines sample_no_deps_line eq_refl eq_refl Hc)
    as (packages & entry & Hbucket & Hentry & _ & _ & Hsorted & Hnodup & _).
  exists packages, entry.
  split; [exact Hbucket|]. split; [exact Hentry|].
  split; [exact Hsorted|exact Hnodup].
Defined.

End BuildFacts.

(** ** Further facts about the script *)

Module BuildExtra.
Import Py Build PyFacts BuildFacts.

(** *** More about the string operations *)

Lemma startswith_true_iff (s p : list N) :
  startswith s p = true ↔ ∃ t, s = p ++ t.
Proof.
  split; [apply startswith_inv|]. intros [t ->]. apply startswith_app.
Qed.

Lemma contains_unfold (sub s : list N) :
  contains sub s
  = startswith s sub
    || match s with [] => false | _ :: rest => contains sub rest end.
Proof. by destruct s. Qed.

(** [sub in s] holds exactly when [s] is some text, then [sub], then some
    text. *)
Lemma contains_true_iff (sub s : list N) :
  contains sub s = true ↔ ∃ a b, s = a ++ sub ++ b.
Proof.
  split.
  - induction s as [|c s IH]; rewrite contains_unfold.
    + rewrite orb_false_r. intros [t Ht]%startswith_inv. by exists [], t.
    + intros [[t Ht]%startswith_inv|H]%orb_true_iff; [by exists [], t|].
      destruct (IH H) as (a & b & ->). by exists (c :: a), b.
  - intros (a & b & ->). induction a as [|c a IH].
    + rewrite contains_unfold. cbn [app]. by rewrite startswith_app.
    + rewrite contains_unfold. cbn [app]. rewrite IH. apply orb_true_r.
Qed.

Lemma split_max_zero (sep : N) (s : list N) : split_max sep 0 s = [s].
Proof. by destruct s. Qed.

Lemma occurrences_cons (c d : N) (s : list N) :
  occurrences c (d :: s)
  = (if bool_decide (d = c) then 1 else 0) + occurrences c s.
Proof.
  unfold occurrences. destruct (decide (d = c)) as [->|Hne].
  - by rewrite filter_cons_True, bool_decide_eq_true_2.
  - by rewrite filter_cons_False, bool_decide_eq_false_2.
Qed.

(** The number of parts of [s.split(sep, n)]: one more than the number of
    separators, and [n + 1] at most. *)
Lemma split_max_parts (sep : N) (n : nat) (s : list N) :
  length (split_max sep n s) = Nat.min (S n) (S (occurrences sep s)).
Proof.
  revert n; induction s as [|c s IH]; intros [|m]; try done.
  simpl split_max. rewrite occurrences_cons.
  destruct (N.eqb_spec c sep) as [->|Hne].
  - rewrite bool_decide_eq_true_2 by done. simpl length.
    rewrite IH. lia.
  - rewrite bool_decide_eq_false_2 by done.
    specialize (IH (S m)).
    destruct (split_max sep (S m) s) as [|p ps]; simpl in *; lia.
Qed.

Lemma lstrip_whitespace_app (ws s : list N) :
  Forall (λ c, isspace c = true) ws → lstrip (ws ++ s) = lstrip s.
Proof. induction 1 as [|c ws Hc _ IH]; [done|]. simpl. by rewrite Hc. Qed.

Lemma lstrip_solid (c : N) (s : list N) :
  isspace c = false → lstrip (c :: s) = c :: s.
Proof. intros Hc. simpl. by rewrite Hc. Qed.

Lemma rstrip_whitespace_app (s ws : list N) :
  Forall (λ c, isspace c = true) ws → rstrip (s ++ ws) = rstrip s.
Proof.
  intros Hws. unfold rstrip. rewrite reverse_app.
  rewrite lstrip_whitespace_app; [done|]. by apply Forall_reverse.
Qed.

Lemma rstrip_solid (s : list N) (c : N) :
  isspace c = false → rstrip (s ++ [c]) = s ++ [c].
Proof.
  intros Hc. unfold rstrip. rewrite reverse_app. cbn [reverse app].
  change (reverse [c]) with [c]. cbn [app].
  rewrite lstrip_solid by done.
  by rewrite reverse_cons, reverse_involutive.
Qed.

(** Stripping removes the whitespace around a text that starts and ends
    with other code points. *)
Lemma strip_surrounded (ws1 ws2 mid : list N) (x y : N) :
  Forall (λ c, isspace c = true) ws1 →
  Forall (λ c, isspace c = true) ws2 →
  isspace x = false → isspace y = false →
  strip (ws1 ++ (x :: mid ++ [y]) ++ ws2) = x :: mid ++ [y].
Proof.
  intros H1 H2 Hx Hy. unfold strip.
  rewrite lstrip_whitespace_app by done.
  cbn [app]. rewrite lstrip_solid by done.
  change (x :: (mid ++ [y]) ++ ws2) with ((x :: mid ++ [y]) ++ ws2).
  rewrite rstrip_whitespace_app by done.
  by rewrite (app_comm_cons mid [y] x), rstrip_solid.
Qed.

Lemma splitlines_from_one_line (cur s : list N) :
  Forall (λ c, is_boundary c = false) s →
  cur ++ s ≠ [] →
  splitlines_from cur s = [reverse cur ++ s].
Proof.
  intros Hs. revert cur. induction Hs as [|c s Hc Hs IH]; intros cur Hne.
  - rewrite app_nil_r in *. simpl. by destruct cur.
  - unfold is_boundary in Hc. apply orb_false_iff in Hc as [Hcr Hlb].
    simpl. rewrite Hcr, Hlb, IH by done.
    by rewrite reverse_cons, <- (assoc_L (++)).
Qed.

(** A nonempty text without line boundaries is its own single line. *)
Lemma splitlines_one_line (s : list N) :
  Forall (λ c, is_boundary c = false) s → s ≠ [] → splitlines s = [s].
Proof. intros Hs Hne. by apply splitlines_from_one_line. Qed.

(** *** Lines that are not install commands *)

Lemma entries_matching (c : category) (lines : list (list N)) :
  entries c (filter (λ l, matches l = true) lines) = entries c lines.
Proof.
  induction lines as [|line lines IH]; [done|].
  destruct (matches line) eqn:Hm.
  - rewrite filter_cons_True by done. by rewrite !entries_cons, IH.
  - rewrite filter_cons_False by (by rewrite Hm).
    rewrite entries_cons, IH. unfold entry_in, rewrite_line. by rewrite Hm.
Qed.

(** The result depends on the lines that start with the install prefix
    only, and on them as a collection: two captured texts with the same
    such lines, in any order and with any other lines between them, give
    the same result. *)
Theorem get_dependencies_ignores_other_lines
    (shell1 shell2 : str → CompletedProcess)
    (error_text : list N → Z → list N) (standalone : bool) :
  returncode (shell1 (build_command standalone)) = 0%Z →
  returncode (shell2 (build_command standalone)) = 0%Z →
  filter (λ l, matches l = true)
    (splitlines (stdout (shell1 (build_command standalone))))
  ≡ₚ filter (λ l, matches l = true)
       (splitlines (stdout (shell2 (build_command standalone)))) →
  get_dependencies shell1 error_text standalone
  = get_dependencies shell2 error_text standalone.
Proof.
  intros Hrc1 Hrc2 Hperm.
  rewrite !get_dependencies_ok, !combine_entries by done.
  assert (∀ c,
    sorted (entries c (splitlines (stdout (shell1 (build_command standalone)))))
    = sorted (entries c (splitlines (stdout (shell2 (build_command standalone))))))
    as Heq.
  { intros c. apply sorted_of_perm.
    rewrite <- (entries_matching c (splitlines (stdout (shell1 _)))).
    rewrite <- (entries_matching c (splitlines (stdout (shell2 _)))).
    by apply entries_perm. }
  by rewrite !Heq.
Qed.

(** *** Entries on one line *)

Lemma not_space_not_boundary (c : N) :
  isspace c = false → is_boundary c = false.
Proof.
  intros Hc. destruct (is_boundary c) eqn:Hb; [|done].
  apply boundary_isspace in Hb. congruence.
Qed.

Lemma parts_no_boundary (line p : list N) :
  Forall (λ c, is_boundary c = false) line →
  p ∈ parts_of line → Forall (λ c, is_boundary c = false) p.
Proof.
  intros Hline Hp. apply Forall_forall. intros x Hx.
  assert (x ∈ replace_first (lit "uv ") (lit "RUN ") line) as Hin.
  { rewrite <- join_parts_of. by eapply elem_of_join_part. }
  apply elem_of_replace_first in Hin as [Hin|Hin].
  - vm_compute in Hin.
    repeat (apply elem_of_cons in Hin as [->|Hin]; [done|]).
    by apply elem_of_nil in Hin.
  - rewrite Forall_forall in Hline. by apply Hline.
Qed.

Lemma single_line_no_boundary (cmd_parts packages : list (list N)) :
  Forall (Forall (λ c, is_boundary c = false)) cmd_parts →
  Forall (Forall (λ c, isspace c = false)) packages →
  Forall (λ c, is_boundary c = false) (single_line cmd_parts packages).
Proof.
  intros Hcmd Hpk. apply Forall_forall. intros x Hx.
  unfold single_line in Hx.
  assert (∀ y, y ∈ lit " " → is_boundary y = false) as Hsp.
  { intros y Hy. vm_compute in Hy.
    apply elem_of_cons in Hy as [->|Hy]; [done|]. by apply elem_of_nil in Hy. }
  apply elem_of_join in Hx as [Hx|(p & Hp & Hx)]; [by apply Hsp|].
  apply elem_of_app in Hp as [Hp|Hp].
  - rewrite Forall_forall in Hcmd. specialize (Hcmd p Hp).
    rewrite Forall_forall in Hcmd. by apply Hcmd.
  - apply list_elem_of_singleton in Hp as ->.
    apply elem_of_join in Hx as [Hx|(t & Ht & Hx)]; [by apply Hsp|].
    rewrite Forall_forall in Hpk. specialize (Hpk t Ht).
    rewrite Forall_forall in Hpk. by apply not_space_not_boundary, Hpk.
Qed.

(** An entry of the IndexURL, NoDeps or NoCache category holds no line
    boundary of any kind: split into lines it is one line, itself. *)
Theorem flagged_entry_is_one_line (text line : list N) (acc : deps) :
  line ∈ splitlines text →
  matches line = true → has_payload line = true →
  classify line ≠ Standard →
  ∃ entry,
    (∀ c, bucket c (process_line acc line)
          = bucket c acc
            ++ (if bool_decide (c = classify line) then [entry] else []))
    ∧ Forall (λ c, is_boundary c = false) entry
    ∧ splitlines entry = [entry].
Proof.
  intros Hin Hm Hp Hc.
  assert (entry_of line = single_line (cmd_parts_of line) (packages_of line))
    as Hentry by (unfold entry_of; by destruct (classify line)).
  assert (Forall (λ c, is_boundary c = false) (entry_of line)) as Hclean.
  { rewrite Hentry. apply single_line_no_boundary.
    - apply Forall_forall. intros p Hpart.
      apply (parts_no_boundary line); [|by apply (subseteq_take 3)].
      pose proof (splitlines_lines text) as Hall.
      rewrite Forall_forall in Hall. by apply Hall.
    - apply Forall_forall. intros t Ht%elem_of_packages_of.
      pose proof (split_ws_tokens (payload_of line)) as Hall.
      rewrite Forall_forall in Hall. by destruct (Hall t Ht). }
  exists (entry_of line).
  split; [intros c; by apply process_line_payload|].
  split; [done|].
  apply splitlines_one_line; [done|].
  rewrite Hentry. apply single_line_nonempty.
  intros Hnil. pose proof (cmd_parts_length line Hp) as Hlen.
  by rewrite Hnil in Hlen.
Qed.

(** *** When a line has a payload *)

Lemma occurrences_space_replaced (line : list N) :
  matches line = true →
  occurrences space (replace_first (lit "uv ") (lit "RUN ") line)
  = occurrences space line.
Proof.
  intros (ws & rest & Hws & ->)%matches_decompose.
  rewrite replace_uv_run by done.
  by rewrite !occurrences_app.
Qed.

(** A matching line is split into command parts and payload, and so
    deduplicated, sorted and classified by its flags, exactly when it holds
    at least three space characters; with fewer it takes the pass-through
    branch.  Tabs and other whitespace do not count. *)
Theorem payload_iff_three_spaces (line : list N) :
  matches line = true →
  (has_payload line = true ↔ 3 ≤ occurrences space line)
  ∧ (has_payload line = false ↔ occurrences space line < 3).
Proof.
  intros Hm. unfold has_payload, parts_of.
  rewrite split_max_parts, occurrences_space_replaced by done.
  split.
  - rewrite Nat.leb_le. lia.
  - rewrite Nat.leb_gt. lia.
Qed.

(** *** Flags are found anywhere in the line *)

(** A matching line with a payload that holds the text of the index-url
    flag anywhere, as a token of its own, with a value attached or inside
    a longer token, is rewritten on one line into the index-url list,
    whatever other flags it holds; nothing is added to the other lists. *)
Theorem index_url_text_anywhere (acc : deps) (a b : list N) :
  let line := a ++ lit "--index-url" ++ b in
  matches line = true → has_payload line = true →
  process_line acc line
  = {| standard_deps := standard_deps acc;
       torch_deps := torch_deps acc
                     ++ [join (lit " ")
                           (take 3 (parts_of line)
                            ++ [join (lit " ")
                                  (sorted_set (split_ws (payload_of line)))])];
       no_deps := no_deps acc;
       no_cache := no_cache acc |}.
Proof.
  intros line Hm Hp.
  assert (contains (lit "--index-url") line = true) as Hc
    by (apply contains_true_iff; by exists a, b).
  unfold process_line. fold (matches line). fold (parts_of line).
  fold (has_payload line). by rewrite Hm, Hp, Hc.
Qed.


(** *** Lines in the usual form *)

Lemma lstrip_keeps_solid (a b : list N) (c : N) :
  isspace c = false → ∃ a', lstrip (a ++ c :: b) = a' ++ c :: b.
Proof.
  intros Hc. induction a as [|d a [a' IH]].
  - exists []. by apply lstrip_solid.
  - cbn [app lstrip]. destruct (isspace d); [by exists a'|by exists (d :: a)].
Qed.

Lemma rstrip_keeps_solid (s t : list N) (c : N) :
  isspace c = false → ∃ t', rstrip ((s ++ [c]) ++ t) = (s ++ [c]) ++ t'.
Proof.
  intros Hc. unfold rstrip.
  rewrite !reverse_app. change (reverse [c]) with [c]. cbn [app].
  destruct (lstrip_keeps_solid (reverse t) (reverse s) c Hc) as [a' ->].
  exists (reverse a').
  rewrite reverse_app, reverse_cons, reverse_involutive. done.
Qed.

Lemma matches_prefixed (t : list N) : matches (lit "uv pip" ++ t) = true.
Proof.
  unfold matches, strip.
  change (lstrip (lit "uv pip" ++ t)) with ((lit "uv pi" ++ [112%N]) ++ t).
  destruct (rstrip_keeps_solid (lit "uv pi") t 112%N eq_refl) as [t' ->].
  apply (startswith_app (lit "uv pip") t').
Qed.

Lemma parts_of_install (rest : list N) :
  parts_of (lit "uv pip install " ++ rest)
  = [lit "RUN"; lit "pip"; lit "install"; rest].
Proof. by destruct rest. Qed.

Lemma deps_eq (d1 d2 : deps) :
  (∀ c, bucket c d1 = bucket c d2) → d1 = d2.
Proof.
  intros H. destruct d1, d2.
  pose proof (H Standard). pose proof (H IndexURL).
  pose proof (H NoDeps). pose proof (H NoCache).
  simpl in *. by subst.
Qed.

Lemma process_install_line (acc : deps) (rest : list N) (c : category) :
  bucket c (process_line acc (lit "uv pip install " ++ rest))
  = bucket c acc
    ++ (if bool_decide (c = classify (lit "uv pip install " ++ rest))
        then [match classify (lit "uv pip install " ++ rest) with
              | Standard => lit "RUN pip install" ++ continuation
                            ++ join continuation (sorted_set (split_ws rest))
              | _ => lit "RUN pip install "
                     ++ join (lit " ") (sorted_set (split_ws rest))
              end]
        else []).
Proof.
  set (line := lit "uv pip install " ++ rest).
  assert (matches line = true) as Hm
    by apply (matches_prefixed (lit " install " ++ rest)).
  assert (parts_of line = [lit "RUN"; lit "pip"; lit "install"; rest])
    as Hparts by apply parts_of_install.
  assert (has_payload line = true) as Hp
    by (unfold has_payload; by rewrite Hparts).
  rewrite process_line_payload by done.
  unfold entry_of, cmd_parts_of, packages_of, payload_of.
  rewrite Hparts. by destruct (classify line).
Qed.

(** A line that begins with the install command and one space is always
    taken apart: the entry begins with RUN pip install and goes on with the
    distinct tokens of the rest of the line in increasing order, one per
    continuation line in the Standard category and space-separated on the
    same line in the three others. *)
Theorem install_line_entry (acc : deps) (rest : list N) :
  let line := lit "uv pip install " ++ rest in
  let packages := sorted_set (split_ws rest) in
  let entry :=
    match classify line with
    | Standard => lit "RUN pip install" ++ continuation
                  ++ join continuation packages
    | _ => lit "RUN pip install " ++ join (lit " ") packages
    end in
  (∀ c, bucket c (process_line acc line)
        = bucket c acc
          ++ (if bool_decide (c = classify line) then [entry] else []))
  ∧ StronglySorted str_le packages
  ∧ NoDup packages
  ∧ (∀ t, t ∈ packages ↔ t ∈ split_ws rest).
Proof.
  intros line packages entry.
  split; [intros c; apply process_install_line|].
  split; [apply sorted_set_strongly|].
  split; [apply NoDup_sorted_set|].
  intros t. apply elem_of_sorted_set.
Qed.

Lemma sorted_set_same_elements (l1 l2 : list (list N)) :
  (∀ t, t ∈ l1 ↔ t ∈ l2) → sorted_set l1 = sorted_set l2.
Proof.
  intros H. unfold sorted_set. do 2 f_equal.
  apply set_eq. intros t. by rewrite !elem_of_list_to_set.
Qed.

(** Two install lines of the same category whose payloads hold the same
    tokens, in any order and any number of times, are rewritten into the
    same entry. *)
Theorem install_line_token_order_irrelevant
    (acc : deps) (rest1 rest2 : list N) :
  (∀ t, t ∈ split_ws rest1 ↔ t ∈ split_ws rest2) →
  classify (lit "uv pip install " ++ rest1)
  = classify (lit "uv pip install " ++ rest2) →
  process_line acc (lit "uv pip install " ++ rest1)
  = process_line acc (lit "uv pip install " ++ rest2).
Proof.
  intros Htok Hc. apply deps_eq. intros c.
  rewrite !process_install_line.
  by rewrite Hc, (sorted_set_same_elements _ _ Htok).
Qed.

(** An indented install line still matches, but the split counts the
    leading space: with one space before the command, the first command
    part is empty, the word install is taken for a package and sorted
    among the tokens of the rest of the line. *)
Theorem indented_install_line (rest : list N) :
  let line := space :: lit "uv pip install " ++ rest in
  matches line = true
  ∧ has_payload line = true
  ∧ cmd_parts_of line = [[]; lit "RUN"; lit "pip"]
  ∧ payload_of line = lit "install " ++ rest
  ∧ (∀ t, t ∈ packages_of line ↔ t = lit "install" ∨ t ∈ split_ws rest).
Proof.
  intros line.
  assert (parts_of line = [[]; lit "RUN"; lit "pip"; lit "install " ++ rest])
    as Hparts by (by destruct rest).
  split.
  { unfold matches, strip, line.
    change (lstrip (space :: lit "uv pip install " ++ rest))
      with ((lit "uv pi" ++ [112%N]) ++ lit " install " ++ rest).
    destruct (rstrip_keeps_solid (lit "uv pi") (lit " install " ++ rest)
                112%N eq_refl) as [t' ->].
    apply (startswith_app (lit "uv pip") t'). }
  split; [unfold has_payload; by rewrite Hparts|].
  split; [unfold cmd_parts_of; by rewrite Hparts|].
  split; [unfold payload_of; by rewrite Hparts|].
  intros t. unfold packages_of, payload_of. rewrite Hparts.
  rewrite elem_of_sorted_set. cbn [nth].
  assert (split_ws (lit "install " ++ rest) = lit "install" :: split_ws rest)
    as ->; [|by rewrite elem_of_cons].
  unfold split_ws.
  change (lit "install " ++ rest) with (lit "install" ++ space :: rest).
  rewrite split_ws_from_token by (by repeat constructor).
  done.
Qed.

(** *** The version check and whitespace *)

(** The version command may print the pinned version with any whitespace
    before and after it, the final line feed included: the check passes
    and prints nothing. *)
Theorem version_check_ignores_surrounding_whitespace
    (shell : str → CompletedProcess) (error_text : list N → Z → list N)
    (ws1 ws2 : list N) :
  returncode (shell (lit "llama stack --version")) = 0%Z →
  stdout (shell (lit "llama stack --version"))
  = ws1 ++ lit "0.2.18" ++ ws2 →
  Forall (λ c, isspace c = true) ws1 →
  Forall (λ c, isspace c = true) ws2 →
  check_llama_stack_version shell error_text = ([], Returns tt).
Proof.
  intros Hrc Hout H1 H2.
  unfold check_llama_stack_version, subprocess_run_check.
  destruct (shell (lit "llama stack --version")) as [rc out err].
  cbn [returncode stdout] in Hrc, Hout. subst rc out.
  cbn [Z.eqb returncode stdout].
  rewrite (strip_surrounded ws1 ws2 (lit ".2.1") 48%N 56%N H1 H2 eq_refl eq_refl
           : strip (ws1 ++ lit "0.2.18" ++ ws2) = lit "0.2.18").
  done.
Qed.

(** *** Writing the Containerfile *)


(** With a template that holds one dependencies field and no other brace,
    [generate_containerfile] returns normally for any dependencies text;
    the output file holds the banner, then the template with the text,
    stripped of trailing whitespace, in the place of the field; every
    other file, the template among them, is as before. *)
Theorem generate_containerfile_writes_one_file
    (fs : gmap string (list N)) (dependencies front back : list N)
    (standalone unified : bool) :
  fs !! template_path = Some (front ++ lit "{dependencies}" ++ back) →
  Forall (λ c, c ≠ lbrace ∧ c ≠ rbrace) front →
  Forall (λ c, c ≠ lbrace ∧ c ≠ rbrace) back →
  ∃ fs',
    generate_containerfile fs dependencies standalone unified
    = Some ([lit "Successfully generated distribution/Containerfile"],
            Returns fs')
    ∧ fs' !! output_path
      = Some (warning standalone unified
              ++ front ++ rstrip dependencies ++ back)
    ∧ fs' !! template_path = fs !! template_path
    ∧ ∀ path, path ≠ output_path → fs' !! path = fs !! path.
Proof.
  intros Htpl Hfront Hback.
  eexists. split.
  - unfold generate_containerfile. rewrite Htpl.
    by rewrite format_one_field.
  - split; [apply lookup_insert_eq|].
    split; [by apply lookup_insert_ne|].
    intros path Hne. by apply lookup_insert_ne.
Qed.

Lemma format_from_name (dependencies name seen back : list N) :
  Forall (λ c, c ≠ rbrace ∧ field_syntax c = false) name →
  format_from (Some seen) dependencies (name ++ rbrace :: back)
  = if bool_decide (reverse seen ++ name = lit "dependencies")
    then format_app dependencies (format_from None dependencies back)
    else Some FormatRaises.
Proof.
  intros Hname. revert seen.
  induction Hname as [|c name [Hr Hs] Hname IH]; intros seen.
  - cbn [app format_from]. rewrite N.eqb_refl, app_nil_r. done.
  - cbn [app format_from]. apply N.eqb_neq in Hr. rewrite Hr, Hs, IH.
    by rewrite reverse_cons, <- (assoc_L (++)).
Qed.

Lemma format_from_open (dependencies name back : list N) :
  Forall (λ c, c ≠ rbrace ∧ field_syntax c = false) name →
  format_from None dependencies (lbrace :: name ++ rbrace :: back)
  = format_from (Some []) dependencies (name ++ rbrace :: back).
Proof.
  intros Hname. destruct Hname as [|c name [Hr Hs] Hname]; [done|].
  assert ((c =? lbrace)%N = false) as Hl.
  { apply N.eqb_neq. intros ->. done. }
  cbn [app]. change (format_from None dependencies (lbrace :: c :: ?t))
    with (if (c =? lbrace)%N
          then format_cons lbrace (format_from None dependencies t)
          else format_from (Some []) dependencies (c :: t)).
  by rewrite Hl.
Qed.

(** A template with a replacement field of another plain name makes
    [generate_containerfile] raise: nothing is printed and no file system
    is returned. *)
Theorem generate_containerfile_unknown_field
    (fs : gmap string (list N)) (dependencies front name back : list N)
    (standalone unified : bool) :
  fs !! template_path = Some (front ++ [lbrace] ++ name ++ [rbrace] ++ back) →
  Forall (λ c, c ≠ lbrace ∧ c ≠ rbrace) front →
  Forall (λ c, c ≠ rbrace ∧ field_syntax c = false) name →
  name ≠ lit "dependencies" →
  generate_containerfile fs dependencies standalone unified
  = Some ([], Raises).
Proof.
  intros Htpl Hfront Hname Hne.
  unfold generate_containerfile, format. rewrite Htpl.
  rewrite format_from_plain by done.
  change ([lbrace] ++ name ++ [rbrace] ++ back)
    with (lbrace :: name ++ rbrace :: back).
  rewrite format_from_open, format_from_name by done.
  by rewrite bool_decide_eq_false_2.
Qed.

(** *** The whole run *)

Section Run.

Variable shell : str → CompletedProcess.
Variable error_text : list N → Z → list N.
Variable which : list N → option (list N).
Variable getenv : list N → option (list N).
Variable lower : list N → list N.

Lemma result_bind_print {A} (s : list N) (m : io A) :
  result (print s >>> m) = result m.
Proof. by destruct m as [out []]. Qed.

Lemma result_bind {A B} (m : io A) (k : A → io B) :
  result (bind m k)
  = match result m with
    | Returns a => result (k a)
    | SysExit code => SysExit code
    | Raises => Raises
    end.
Proof.
  destruct m as [out [a|code|]]; simpl; [|done|done].
  by destruct (k a).
Qed.

Lemma result_check_llama_installed :
  result (check_llama_installed which)
  = if truthy (which (lit "llama")) then Returns tt else SysExit 1%Z.
Proof. unfold check_llama_installed. by destruct (truthy _). Qed.

Lemma result_check_llama_stack_version :
  result (check_llama_stack_version shell error_text)
  = if version_accepted shell then Returns tt else SysExit 1%Z.
Proof.
  unfold check_llama_stack_version, subprocess_run_check, version_accepted.
  rewrite pinned_version_base.
  destruct (returncode (shell (lit "llama stack --version")) =? 0)%Z; [|done].
  change (truthy (Some (lit "0.2.18"))) with true.
  destruct (decide (strip (stdout (shell (lit "llama stack --version")))
                    = lit "0.2.18")) as [Heq|Hne].
  - rewrite !bool_decide_eq_true_2 by congruence. done.
  - rewrite !bool_decide_eq_false_2 by congruence. done.
Qed.

Lemma result_get_dependencies (standalone : bool) :
  result (get_dependencies shell error_text standalone)
  = if (returncode (shell (build_command standalone)) =? 0)%Z
    then Returns (combine (collect
                    (stdout (shell (build_command standalone)))))
    else SysExit 1%Z.
Proof.
  unfold get_dependencies, subprocess_run_check.
  by destruct (returncode _ =? 0)%Z.
Qed.

Lemma result_gather (standalone unified : bool) :
  result (gather shell error_text which standalone unified)
  = if truthy (which (lit "llama")) && version_accepted shell
       && (returncode (shell (build_command standalone)) =? 0)%Z
    then Returns (combine (collect
                    (stdout (shell (build_command standalone)))))
    else SysExit 1%Z.
Proof.
  unfold gather.
  rewrite result_bind.
  assert (∀ m : io unit, (∃ s, m = print s) → result m = Returns tt) as Hp
    by (by intros m [s ->]).
  rewrite Hp by (destruct unified; eauto).
  rewrite result_bind_print, result_bind, result_check_llama_installed.
  destruct (truthy (which (lit "llama"))); [|done].
  rewrite result_bind_print, result_bind, result_check_llama_stack_version.
  destruct (version_accepted shell); [|done].
  rewrite result_bind_print, result_get_dependencies.
  by destruct (returncode _ =? 0)%Z.
Qed.

Lemma generate_containerfile_ok (fs : gmap string (list N))
    (dependencies front back : list N) (standalone unified : bool) :
  fs !! template_path = Some (front ++ lit "{dependencies}" ++ back) →
  Forall (λ c, c ≠ lbrace ∧ c ≠ rbrace) front →
  Forall (λ c, c ≠ lbrace ∧ c ≠ rbrace) back →
  generate_containerfile fs dependencies standalone unified
  = Some ([lit "Successfully generated distribution/Containerfile"],
          Returns (<[output_path := warning standalone unified ++ front
                                    ++ rstrip dependencies ++ back]> fs)).
Proof.
  intros Htpl Hfront Hback. unfold generate_containerfile.
  rewrite Htpl. by rewrite format_one_field.
Qed.

(** With a template that holds one dependencies field and no other brace,
    [main] returns normally exactly when the llama program is found, the
    version check does not fail (the version command exits with a nonzero
    status, or prints the pinned version) and the build command exits with
    status zero; it then leaves the file system with the Containerfile
    written: the banner for the mode, unified before standalone, and the
    template filled with the result of the build command for the
    configuration the standalone switch selects.  In every other case it
    leaves through [sys.exit] with status 1. *)
Theorem main_outcome (args_standalone args_unified : bool)
    (fs : gmap string (list N)) (front back : list N) :
  fs !! template_path = Some (front ++ lit "{dependencies}" ++ back) →
  Forall (λ c, c ≠ lbrace ∧ c ≠ rbrace) front →
  Forall (λ c, c ≠ lbrace ∧ c ≠ rbrace) back →
  let standalone :=
    args_standalone || env_enabled getenv lower (lit "STANDALONE") in
  let unified := args_unified || env_enabled getenv lower (lit "UNIFIED") in
  let build := shell (build_command standalone) in
  ∃ printed,
    main shell error_text which getenv lower args_standalone args_unified fs
    = Some (printed,
            if truthy (which (lit "llama")) && version_accepted shell
               && (returncode build =? 0)%Z
            then Returns
                   (<[output_path :=
                        warning standalone unified ++ front
                        ++ rstrip (combine (collect (stdout build)))
                        ++ back]> fs)
            else SysExit 1%Z).
Proof.
  intros Htpl Hfront Hback standalone unified build.
  unfold main. fold standalone. fold unified.
  pose proof (result_gather standalone unified) as Hres.
  fold build in Hres.
  destruct (gather shell error_text which standalone unified) as [out r].
  unfold result in Hres. cbn [snd] in Hres. subst r.
  destruct (truthy (which (lit "llama")) && version_accepted shell
            && (returncode build =? 0)%Z); [|by eexists].
  rewrite (generate_containerfile_ok fs _ front back) by done.
  clearbody build unified standalone.
  by destruct unified, standalone; eexists.
Qed.

(** Without the template file [main] never returns normally and writes
    nothing: whatever the environment, it leaves through [sys.exit] with
    status 1. *)
Theorem main_without_template (args_standalone args_unified : bool)
    (fs : gmap string (list N)) :
  fs !! template_path = None →
  ∃ printed,
    main shell error_text which getenv lower args_standalone args_unified fs
    = Some (printed, SysExit 1%Z).
Proof.
  intros Htpl. unfold main.
  set (standalone := args_standalone || _).
  set (unified := args_unified || _).
  pose proof (result_gather standalone unified) as Hres.
  destruct (gather shell error_text which standalone unified) as [out r].
  unfold result in Hres. cbn [snd] in Hres. subst r.
  destruct (truthy (which (lit "llama")) && version_accepted shell
            && (returncode _ =? 0)%Z); [|by eexists].
  unfold generate_containerfile. rewrite Htpl.
  eexists. cbn. reflexivity.
Qed.

(** When the llama program is not found [main] stops after the first
    check: it prints the line for the mode, the line of the check and the
    error, and leaves with status 1; no command is run and no file is
    read. *)
Theorem main_tool_missing (args_standalone args_unified : bool)
    (fs : gmap string (list N)) :
  truthy (which (lit "llama")) = false →
  let standalone :=
    args_standalone || env_enabled getenv lower (lit "STANDALONE") in
  let unified := args_unified || env_enabled getenv lower (lit "UNIFIED") in
  main shell error_text which getenv lower args_standalone args_unified fs
  = Some ([if unified
           then lit "Building unified version (supports both full and standalone modes)..."
           else lit "Building "
                ++ (if standalone then lit "standalone" else lit "full")
                ++ lit " version...";
           lit "Checking llama installation...";
           lit "Error: llama binary not found. Please install it first."],
          SysExit 1%Z).
Proof.
  intros Hwhich standalone unified.
  unfold main, gather, check_llama_installed.
  fold standalone. fold unified. rewrite Hwhich.
  by destruct unified.
Qed.

End Run.

(** *** The further facts at sample inputs *)

Lemma sample_matching_lines_rearranged :
  filter (λ l, matches l = true) (splitlines sample_output)
  ≡ₚ filter (λ l, matches l = true) (splitlines sample_output_bare).
Proof. apply (bool_decide_unpack _). by vm_compute. Defined.

Lemma get_dependencies_ignores_other_lines_witness :
  returncode (answering 0 sample_output (build_command false)) = 0%Z
  ∧ returncode (answering 0 sample_output_bare (build_command false)) = 0%Z
  ∧ filter (λ l, matches l = true) (splitlines sample_output)
    ≡ₚ filter (λ l, matches l = true) (splitlines sample_output_bare)
  ∧ get_dependencies (answering 0 sample_output) plain_error_text false
    = get_dependencies (answering 0 sample_output_bare)
        plain_error_text false.
Proof.
  split; [reflexivity|]. split; [reflexivity|].
  split; [apply sample_matching_lines_rearranged|].
  apply (get_dependencies_ignores_other_lines
           (answering 0 sample_output) (answering 0 sample_output_bare)
           plain_error_text false);
    [reflexivity|reflexivity|apply sample_matching_lines_rearranged].
Defined.

Lemma flagged_entry_is_one_line_witness :
  sample_no_deps_line ∈ splitlines sample_output
  ∧ matches sample_no_deps_line = true
  ∧ has_payload sample_no_deps_line = true
  ∧ classify sample_no_deps_line ≠ Standard
  ∧ ∃ entry,
      (∀ c, bucket c (process_line no_lines sample_no_deps_line)
            = bucket c no_lines
              ++ (if bool_decide (c = classify sample_no_deps_line)
                  then [entry] else []))
      ∧ Forall (λ c, is_boundary c = false) entry
      ∧ splitlines entry = [entry].
Proof.
  assert (sample_no_deps_line ∈ splitlines sample_output) as Hin
    by (apply (bool_decide_unpack _); by vm_compute).
  assert (classify sample_no_deps_line ≠ Standard) as Hc
    by (apply (bool_decide_unpack _); by vm_compute).
  split; [exact Hin|]. split; [reflexivity|]. split; [reflexivity|].
  split; [exact Hc|].
  exact (flagged_entry_is_one_line sample_output sample_no_deps_line
           no_lines Hin eq_refl eq_refl Hc).
Defined.

Lemma payload_iff_three_spaces_witness :
  matches sample_short_line = true
  ∧ (has_payload sample_short_line = true
     ↔ 3 ≤ occurrences space sample_short_line)
  ∧ (has_payload sample_short_line = false
     ↔ occurrences space sample_short_line < 3).
Proof.
  split; [reflexivity|].
  exact (payload_iff_three_spaces sample_short_line eq_refl).
Defined.

Lemma index_url_text_anywhere_witness :
  let a := lit "uv pip install torch " in
  let b := lit "=https://download.pytorch.org/whl/cpu --no-deps" in
  let line := a ++ lit "--index-url" ++ b in
  matches line = true
  ∧ has_payload line = true
  ∧ process_line no_lines line
    = {| standard_deps := [];
         torch_deps :=
           [] ++ [join (lit " ")
                    (take 3 (parts_of line)
                     ++ [join (lit " ")
                           (sorted_set (split_ws (payload_of line)))])];
         no_deps := [];
         no_cache := [] |}.
Proof.
  intros a b line.
  split; [reflexivity|]. split; [reflexivity|].
  exact (index_url_text_anywhere no_lines a b eq_refl eq_refl).
Defined.

Lemma sample_same_tokens :
  ∀ t, t ∈ split_ws (lit "b a  b") ↔ t ∈ split_ws (lit "a b").
Proof.
  intros t.
  change (split_ws (lit "b a  b")) with [lit "b"; lit "a"; lit "b"].
  change (split_ws (lit "a b")) with [lit "a"; lit "b"].
  rewrite !elem_of_cons, !elem_of_nil. tauto.
Defined.

Lemma install_line_token_order_irrelevant_witness :
  (∀ t, t ∈ split_ws (lit "b a  b") ↔ t ∈ split_ws (lit "a b"))
  ∧ classify (lit "uv pip install " ++ lit "b a  b")
    = classify (lit "uv pip install " ++ lit "a b")
  ∧ process_line no_lines (lit "uv pip install " ++ lit "b a  b")
    = process_line no_lines (lit "uv pip install " ++ lit "a b").
Proof.
  split; [exact sample_same_tokens|]. split; [reflexivity|].
  exact (install_line_token_order_irrelevant no_lines
           (lit "b a  b") (lit "a b") sample_same_tokens eq_refl).
Defined.

Lemma version_check_ignores_surrounding_whitespace_witness :
  returncode (sample_shell (lit "llama stack --version")) = 0%Z
  ∧ stdout (sample_shell (lit "llama stack --version"))
    = [] ++ lit "0.2.18" ++ [newline]
  ∧ Forall (λ c, isspace c = true) [newline]
  ∧ check_llama_stack_version sample_shell plain_error_text
    = ([], Returns tt).
Proof.
  assert (Forall (λ c, isspace c = true) [newline]) as Hws
    by (apply (bool_decide_unpack _); by vm_compute).
  split; [reflexivity|]. split; [reflexivity|]. split; [exact Hws|].
  exact (version_check_ignores_surrounding_whitespace
           sample_shell plain_error_text [] [newline]
           eq_refl eq_refl (Forall_nil_2 _) Hws).
Defined.


Lemma sample_template_lookup :
  sample_fs !! template_path
  = Some (sample_front ++ lit "{dependencies}" ++ sample_back).
Proof. apply lookup_singleton_eq. Defined.

Lemma sample_front_plain : Forall (λ c, c ≠ lbrace ∧ c ≠ rbrace) sample_front.
Proof. apply (bool_decide_unpack _). by vm_compute. Defined.

Lemma sample_back_plain : Forall (λ c, c ≠ lbrace ∧ c ≠ rbrace) sample_back.
Proof. apply (bool_decide_unpack _). by vm_compute. Defined.

Lemma generate_containerfile_writes_one_file_witness :
  sample_fs !! template_path
  = Some (sample_front ++ lit "{dependencies}" ++ sample_back)
  ∧ ∃ fs',
      generate_containerfile sample_fs (lit "RUN pip install a" ++ [newline])
        false false
      = Some ([lit "Successfully generated distribution/Containerfile"],
              Returns fs')
      ∧ fs' !! output_path
        = Some (warning false false ++ sample_front
                ++ rstrip (lit "RUN pip install a" ++ [newline])
                ++ sample_back)
      ∧ fs' !! template_path = sample_fs !! template_path
      ∧ ∀ path, path ≠ output_path → fs' !! path = sample_fs !! path.
Proof.
  split; [exact sample_template_lookup|].
  exact (generate_containerfile_writes_one_file sample_fs
           (lit "RUN pip install a" ++ [newline]) sample_front sample_back
           false false sample_template_lookup
           sample_front_plain sample_back_plain).
Defined.

Lemma generate_containerfile_unknown_field_witness :
  let fs : gmap string (list N) :=
    {[ template_path := lit "FROM " ++ [lbrace] ++ lit "base" ++ [rbrace] ++ [] ]} in
  fs !! template_path
  = Some (lit "FROM " ++ [lbrace] ++ lit "base" ++ [rbrace] ++ [])
  ∧ lit "base" ≠ lit "dependencies"
  ∧ generate_containerfile fs (lit "RUN pip install a") false false
    = Some ([], Raises).
Proof.
  intros fs.
  assert (fs !! template_path
          = Some (lit "FROM " ++ [lbrace] ++ lit "base" ++ [rbrace] ++ []))
    as Htpl by apply lookup_singleton_eq.
  assert (lit "base" ≠ lit "dependencies") as Hne
    by (apply (bool_decide_unpack _); by vm_compute).
  split; [exact Htpl|]. split; [exact Hne|].
  apply (generate_containerfile_unknown_field fs (lit "RUN pip install a")
           (lit "FROM ") (lit "base") [] false false Htpl);
    [apply (bool_decide_unpack _); by vm_compute
    |apply (bool_decide_unpack _); by vm_compute
    |exact Hne].
Defined.

Lemma main_outcome_witness :
  sample_fs !! template_path
  = Some (sample_front ++ lit "{dependencies}" ++ sample_back)
  ∧ ∃ printed,
      main sample_shell plain_error_text sample_which sample_getenv
        sample_lower true false sample_fs
      = Some (printed,
              Returns
                (<[output_path :=
                     warning true true ++ sample_front
                     ++ rstrip (combine (collect sample_output))
                     ++ sample_back]> sample_fs)).
Proof.
  split; [exact sample_template_lookup|].
  exact (main_outcome sample_shell plain_error_text sample_which
           sample_getenv sample_lower true false sample_fs
           sample_front sample_back sample_template_lookup
           sample_front_plain sample_back_plain).
Defined.

Lemma main_without_template_witness :
  (∅ : gmap string (list N)) !! template_path = None
  ∧ ∃ printed,
      main sample_shell plain_error_text sample_which sample_getenv
        sample_lower false false ∅
      = Some (printed, SysExit 1%Z).
Proof.
  split; [apply lookup_empty|].
  exact (main_without_template sample_shell plain_error_text sample_which
           sample_getenv sample_lower false false ∅ (lookup_empty _)).
Defined.

Lemma main_tool_missing_witness :
  truthy ((λ _ : list N, @None (list N)) (lit "llama")) = false
  ∧ main sample_shell plain_error_text (λ _, None) sample_getenv
      sample_lower true false sample_fs
    = Some ([lit "Building unified version (supports both full and standalone modes)...";
             lit "Checking llama installation...";
             lit "Error: llama binary not found. Please install it first."],
            SysExit 1%Z).
Proof.
  split; [reflexivity|].
  exact (main_tool_missing sample_shell plain_error_text (λ _, None)
           sample_getenv sample_lower true false sample_fs eq_refl).
Defined.

End BuildExtra.
